(** * little_vm_sim: a demand-paged virtual memory simulator

    Shallow embedding of [pages.c]: a two-level page table, a physical frame
    allocator, the address translator and the page-fault service routine,
    followed by the properties of the specification that were checked
    against it.

    Conventions of the embedding.
    - C integers are [Z]; a narrowing conversion or an unsigned increment is
      written with its wrap-around ([wrap8], [wrap16], [wrap32]).
    - The global arrays are lists read with [!!!] and updated with
      [<[i:=x]>]; [vm_ok] records the lengths the C declarations fix.
    - [RAM] (one megabyte) is a function from addresses to bytes.
    - A pointer to a second-level table is [option L2Table], NULL being
      [None]; every table is owned by exactly one first-level slot.
    - The outcome of [malloc] is an input of the operations that may call
      it ([malloc_ok]); each of them calls it at most once.
    - An out-parameter is a cell of type [option Z], [None] standing for a
      cell that has not been written; the function returns the cell.
    - Diagnostic output ([printf], [fprintf]) is not modelled. *)

From Stdlib Require Import ZArith Lia Bool.
From stdpp Require Import base list.

Local Open Scope Z_scope.

(** ** Constants *)

Definition RAM_SIZE : Z := Z.shiftl 1 20.
Definition PAGE_SIZE : Z := 4096.
Definition NUM_PHYS_PAGES : Z := RAM_SIZE / PAGE_SIZE.

Definition L1_ENTRIES : Z := 16.
Definition L2_ENTRIES : Z := 16.

Definition PTE_VALID : Z := 0x01.
Definition PTE_WRITE : Z := 0x02.
Definition PTE_READ : Z := 0x04.

(** Conversions to [uint8_t], [uint16_t] and [uint32_t]. *)
Definition wrap8 (x : Z) : Z := x mod 2 ^ 8.
Definition wrap16 (x : Z) : Z := x mod 2 ^ 16.
Definition wrap32 (x : Z) : Z := x mod 2 ^ 32.

(** ** Data *)

Record L2Entry : Type := mkL2Entry {
  phys_page : Z;   (* int: -1 when no frame is recorded *)
  flags : Z        (* uint8_t: valid, read/write permissions *)
}.

Record L2Table : Type := mkL2Table { entries : list L2Entry }.

Record L1Table : Type := mkL1Table { tables : list (option L2Table) }.

Record VMStats : Type := mkVMStats {
  page_faults : Z;
  reads : Z;
  writes : Z;
  translation_failures : Z
}.

Record VM : Type := mkVM {
  RAM : Z -> Z;
  page_table : L1Table;
  phys_pages_used : list bool;
  stats : VMStats
}.

#[global] Instance L2Entry_inhabited : Inhabited L2Entry :=
  populate (mkL2Entry (-1) 0).

(** Field updates. *)
Definition set_RAM (r : Z -> Z) (s : VM) : VM :=
  mkVM r (page_table s) (phys_pages_used s) (stats s).
Definition set_tables (ts : list (option L2Table)) (s : VM) : VM :=
  mkVM (RAM s) (mkL1Table ts) (phys_pages_used s) (stats s).
Definition set_used (u : list bool) (s : VM) : VM :=
  mkVM (RAM s) (page_table s) u (stats s).
Definition set_stats (st : VMStats) (s : VM) : VM :=
  mkVM (RAM s) (page_table s) (phys_pages_used s) st.

(** The four [stats.x++] statements. *)
Definition incr_page_faults (s : VM) : VM :=
  let st := stats s in
  set_stats (mkVMStats (wrap32 (page_faults st + 1)) (reads st) (writes st)
               (translation_failures st)) s.
Definition incr_reads (s : VM) : VM :=
  let st := stats s in
  set_stats (mkVMStats (page_faults st) (wrap32 (reads st + 1)) (writes st)
               (translation_failures st)) s.
Definition incr_writes (s : VM) : VM :=
  let st := stats s in
  set_stats (mkVMStats (page_faults st) (reads st) (wrap32 (writes st + 1))
               (translation_failures st)) s.
Definition incr_translation_failures (s : VM) : VM :=
  let st := stats s in
  set_stats (mkVMStats (page_faults st) (reads st) (writes st)
               (wrap32 (translation_failures st + 1))) s.

(** [memset(&ram[base], 0, len)] and [ram[a] = v]. *)
Definition memset_zero (base len : Z) (ram : Z -> Z) : Z -> Z :=
  fun a => if (base <=? a) && (a <? base + len) then 0 else ram a.
Definition store (a v : Z) (ram : Z -> Z) : Z -> Z :=
  fun b => if b =? a then v else ram b.

(** The state of the globals when the program starts (all zero). *)
Definition boot : VM :=
  mkVM (fun _ => 0)
       (mkL1Table (replicate (Z.to_nat L1_ENTRIES) None))
       (replicate (Z.to_nat NUM_PHYS_PAGES) false)
       (mkVMStats 0 0 0 0).

(** ** Operations *)

(** [init_vm]: the three [memset]s; [RAM] is left as it is. *)
Definition init_vm (s : VM) : VM :=
  mkVM (RAM s)
       (mkL1Table (replicate (Z.to_nat L1_ENTRIES) None))
       (replicate (Z.to_nat NUM_PHYS_PAGES) false)
       (mkVMStats 0 0 0 0).

(** [allocate_L2]: NULL when [malloc] fails, else a table of unmapped
    entries. *)
Definition allocate_L2 (malloc_ok : bool) : option L2Table :=
  if malloc_ok
  then Some (mkL2Table (replicate (Z.to_nat L2_ENTRIES) (mkL2Entry (-1) 0)))
  else None.

(** The body of the [if] in [allocate_phys_page]: frame [i] is marked used
    and its bytes are cleared. *)
Definition take_frame (i : Z) (s : VM) : VM :=
  set_RAM (memset_zero (i * PAGE_SIZE) PAGE_SIZE (RAM s))
    (set_used (<[Z.to_nat i := true]> (phys_pages_used s)) s).

(** The loop of [allocate_phys_page], from index [i] with [n] iterations
    left. *)
Fixpoint allocate_scan (n : nat) (i : Z) (s : VM) : Z * VM :=
  match n with
  | O => (-1, s)
  | S n' =>
      if negb (phys_pages_used s !!! Z.to_nat i)
      then (i, take_frame i s)
      else allocate_scan n' (i + 1) s
  end.

Definition allocate_phys_page (s : VM) : Z * VM :=
  allocate_scan (Z.to_nat NUM_PHYS_PAGES) 0 s.

Definition free_phys_page (pp : Z) (s : VM) : VM :=
  if (0 <=? pp) && (pp <? NUM_PHYS_PAGES)
  then set_used (<[Z.to_nat pp := false]> (phys_pages_used s)) s
  else s.

Definition map_page (malloc_ok : bool) (virt_page pp fl : Z) (s : VM)
  : Z * VM :=
  if L1_ENTRIES * L2_ENTRIES <=? virt_page then (-1, s)
  else if NUM_PHYS_PAGES <=? pp then (-1, s)
  else
    let l1 := Z.to_nat (Z.land (Z.shiftr virt_page 4) 0xf) in
    let l2 := Z.to_nat (Z.land virt_page 0xf) in
    let slot := match tables (page_table s) !!! l1 with
                | Some t => Some t
                | None => allocate_L2 malloc_ok
                end in
    match slot with
    | None => (-1, s)
    | Some t =>
        let e := mkL2Entry pp (wrap8 (Z.lor fl PTE_VALID)) in
        let t' := mkL2Table (<[l2 := e]> (entries t)) in
        (0, set_used (<[Z.to_nat pp := true]> (phys_pages_used s))
              (set_tables (<[l1 := Some t']> (tables (page_table s))) s))
    end.

Definition translate (vaddr : Z) (out_paddr : option Z) (is_write : bool)
    (s : VM) : Z * option Z * VM :=
  if RAM_SIZE <=? vaddr
  then (-1, out_paddr, incr_translation_failures s)
  else
    let l1 := Z.to_nat (Z.land (Z.shiftr vaddr 16) 0xf) in
    let l2 := Z.to_nat (Z.land (Z.shiftr vaddr 12) 0xf) in
    let off := Z.land vaddr 0xfff in
    match tables (page_table s) !!! l1 with
    | None => (-1, out_paddr, incr_translation_failures s)
    | Some t =>
        let entry := entries t !!! l2 in
        let pp := phys_page entry in
        if (pp <? 0) || (Z.land (flags entry) PTE_VALID =? 0)
        then (-1, out_paddr, incr_translation_failures s)
        else if is_write && (Z.land (flags entry) PTE_WRITE =? 0)
        then (-2, out_paddr, incr_translation_failures s)
        else if negb is_write && (Z.land (flags entry) PTE_READ =? 0)
        then (-2, out_paddr, incr_translation_failures s)
        else
          let paddr := wrap32 (pp * PAGE_SIZE + off) in
          if RAM_SIZE <=? paddr
          then (-1, out_paddr, incr_translation_failures s)
          else (0, Some paddr, s)
    end.

Definition unmap_page (virt_page : Z) (s : VM) : Z * VM :=
  if L1_ENTRIES * L2_ENTRIES <=? virt_page then (-1, s)
  else
    let l1 := Z.to_nat (Z.land (Z.shiftr virt_page 4) 0xf) in
    let l2 := Z.to_nat (Z.land virt_page 0xf) in
    match tables (page_table s) !!! l1 with
    | None => (-1, s)
    | Some t =>
        let pp := phys_page (entries t !!! l2) in
        let s1 := if 0 <=? pp then free_phys_page pp s else s in
        let t' := mkL2Table (<[l2 := mkL2Entry (-1) 0]> (entries t)) in
        (0, set_tables (<[l1 := Some t']> (tables (page_table s1))) s1)
    end.

Definition page_fault_handler (malloc_ok : bool) (virt_page : Z) (s : VM)
  : Z * VM :=
  let s1 := incr_page_faults s in
  let '(pp, s2) := allocate_phys_page s1 in
  if pp <? 0 then (-1, s2)
  else map_page malloc_ok virt_page pp (Z.lor PTE_READ PTE_WRITE) s2.

(** The tail of [write_vmem], from [if (res != 0)] on.  [paddr] is the local
    variable; it has been written whenever [res] is 0
    ([translate_zero_writes]). *)
Definition write_vmem_finish (res : Z) (paddr : option Z) (val : Z) (s : VM)
  : Z * VM :=
  if negb (res =? 0) then (-1, s)
  else match paddr with
       | Some pa => (0, incr_writes (set_RAM (store pa val (RAM s)) s))
       | None => (-1, s)
       end.

Definition write_vmem (malloc_ok : bool) (vaddr val : Z) (s : VM) : Z * VM :=
  let '(res, paddr, s1) := translate vaddr None true s in
  if res =? -1 then
    let virt_page := wrap16 (Z.shiftr vaddr 12) in
    let '(r, s2) := page_fault_handler malloc_ok virt_page s1 in
    if negb (r =? 0) then (-1, s2)
    else
      let '(res', paddr', s3) := translate vaddr paddr true s2 in
      write_vmem_finish res' paddr' val s3
  else write_vmem_finish res paddr val s1.

(** The tail of [read_vmem]; [out] is the cell behind the out-parameter. *)
Definition read_vmem_finish (res : Z) (paddr : option Z) (out : option Z)
    (s : VM) : Z * option Z * VM :=
  if negb (res =? 0) then (-1, out, s)
  else match paddr with
       | Some pa => (0, Some (RAM s pa), incr_reads s)
       | None => (-1, out, s)
       end.

Definition read_vmem (malloc_ok : bool) (vaddr : Z) (out : option Z) (s : VM)
  : Z * option Z * VM :=
  let '(res, paddr, s1) := translate vaddr None false s in
  if res =? -1 then
    let virt_page := wrap16 (Z.shiftr vaddr 12) in
    let '(r, s2) := page_fault_handler malloc_ok virt_page s1 in
    if negb (r =? 0) then (-1, out, s2)
    else
      let '(res', paddr', s3) := translate vaddr paddr false s2 in
      read_vmem_finish res' paddr' out s3
  else read_vmem_finish res paddr out s1.

(** The loop of [free_pages], from slot [i] with [n] iterations left. *)
Fixpoint free_pages_loop (n i : nat) (ts : list (option L2Table))
  : list (option L2Table) :=
  match n with
  | O => ts
  | S n' =>
      match ts !!! i with
      | None => free_pages_loop n' (S i) ts
      | Some _ => free_pages_loop n' (S i) (<[i := None]> ts)
      end
  end.

Definition free_pages (s : VM) : VM :=
  set_tables (free_pages_loop (Z.to_nat L1_ENTRIES) 0 (tables (page_table s))) s.

(** The counting loop of [print_stats], from frame [i] with [n] iterations
    left and [used_pages] counted so far. *)
Fixpoint used_pages_loop (n : nat) (i : Z) (used : list bool) (used_pages : Z)
  : Z :=
  match n with
  | O => used_pages
  | S n' =>
      used_pages_loop n' (i + 1) used
        (if (used !!! Z.to_nat i : bool) then used_pages + 1 else used_pages)
  end.

(** What [print_stats] prints: the four counters, the number of frames in
    use and the number of frames. *)
Record StatsReport : Type := mkStatsReport {
  rep_page_faults : Z;
  rep_reads : Z;
  rep_writes : Z;
  rep_trans_fails : Z;
  rep_used_pages : Z;
  rep_phys_pages : Z
}.

Definition print_stats (s : VM) : StatsReport :=
  mkStatsReport (page_faults (stats s)) (reads (stats s)) (writes (stats s))
    (translation_failures (stats s))
    (used_pages_loop (Z.to_nat NUM_PHYS_PAGES) 0 (phys_pages_used s) 0)
    NUM_PHYS_PAGES.

(** ** Vocabulary of the specification *)

(** The number of [true] cells of a bitmap. *)
Fixpoint count_used (l : list bool) : Z :=
  match l with
  | [] => 0
  | b :: l' => (if b then 1 else 0) + count_used l'
  end.


(** The branch [translate] takes, named as the specification names its
    results.  The C function tells them apart only by its return value
    ([outcome_code]); [translate_classified] ties the two together. *)
Inductive TranslateOutcome : Type :=
| Translated (paddr : Z)
| OutOfBounds
| TranslationMiss
| PermissionDenied
| InternalInconsistency (paddr : Z).

Definition translate_outcome (vaddr : Z) (is_write : bool) (s : VM)
  : TranslateOutcome :=
  if RAM_SIZE <=? vaddr then OutOfBounds
  else
    let l1 := Z.to_nat (Z.land (Z.shiftr vaddr 16) 0xf) in
    let l2 := Z.to_nat (Z.land (Z.shiftr vaddr 12) 0xf) in
    let off := Z.land vaddr 0xfff in
    match tables (page_table s) !!! l1 with
    | None => TranslationMiss
    | Some t =>
        let entry := entries t !!! l2 in
        let pp := phys_page entry in
        if (pp <? 0) || (Z.land (flags entry) PTE_VALID =? 0)
        then TranslationMiss
        else if is_write && (Z.land (flags entry) PTE_WRITE =? 0)
        then PermissionDenied
        else if negb is_write && (Z.land (flags entry) PTE_READ =? 0)
        then PermissionDenied
        else
          let paddr := wrap32 (pp * PAGE_SIZE + off) in
          if RAM_SIZE <=? paddr then InternalInconsistency paddr
          else Translated paddr
    end.

Definition outcome_code (o : TranslateOutcome) : Z :=
  match o with
  | Translated _ => 0
  | PermissionDenied => -2
  | OutOfBounds | TranslationMiss | InternalInconsistency _ => -1
  end.

(** The page-table entry of a virtual page, when its second-level table
    exists. *)
Definition pte (virt_page : Z) (s : VM) : option L2Entry :=
  let l1 := Z.to_nat (Z.land (Z.shiftr virt_page 4) 0xf) in
  let l2 := Z.to_nat (Z.land virt_page 0xf) in
  match tables (page_table s) !!! l1 with
  | None => None
  | Some t => Some (entries t !!! l2)
  end.

Definition has_flag (e : L2Entry) (bit : Z) : bool :=
  negb (Z.land (flags e) bit =? 0).

(** An entry that maps its page: a frame is recorded and VALID is set. *)
Definition entry_mapped (e : L2Entry) : bool :=
  (0 <=? phys_page e) && has_flag e PTE_VALID.

Definition unmapped (virt_page : Z) (s : VM) : Prop :=
  match pte virt_page s with
  | None => True
  | Some e => entry_mapped e = false
  end.

(** The virtual page of an address. *)
Definition vpage (vaddr : Z) : Z := Z.shiftr vaddr 12.

(** The sizes the C declarations fix, and the range of recorded frames. *)
Definition entry_ok (e : L2Entry) : Prop := phys_page e < NUM_PHYS_PAGES.

Definition table_ok (t : L2Table) : Prop :=
  length (entries t) = Z.to_nat L2_ENTRIES /\ Forall entry_ok (entries t).

Definition slot_ok (o : option L2Table) : Prop :=
  match o with
  | None => True
  | Some t => table_ok t
  end.

Definition vm_ok (s : VM) : Prop :=
  length (tables (page_table s)) = Z.to_nat L1_ENTRIES
  /\ Forall slot_ok (tables (page_table s))
  /\ length (phys_pages_used s) = Z.to_nat NUM_PHYS_PAGES.

(** A frame is free. *)
Definition frame_free (i : Z) (s : VM) : Prop :=
  0 <= i < NUM_PHYS_PAGES /\ phys_pages_used s !!! Z.to_nat i = false.

(** The public operations, and the states they reach from [boot]. *)
Inductive Op : Type :=
| OpInit
| OpMap (malloc_ok : bool) (virt_page pp fl : Z)
| OpUnmap (virt_page : Z)
| OpRead (malloc_ok : bool) (vaddr : Z)
| OpWrite (malloc_ok : bool) (vaddr val : Z)
| OpTranslate (vaddr : Z) (is_write : bool)
| OpTeardown.

(** Return value (0 for the [void] functions) and next state. *)
Definition exec (o : Op) (s : VM) : Z * VM :=
  match o with
  | OpInit => (0, init_vm s)
  | OpMap m v f fl => map_page m v f fl s
  | OpUnmap v => unmap_page v s
  | OpRead m a => let '(r, _, s') := read_vmem m a None s in (r, s')
  | OpWrite m a v => write_vmem m a v s
  | OpTranslate a w => let '(r, _, s') := translate a None w s in (r, s')
  | OpTeardown => (0, free_pages s)
  end.

Definition step (o : Op) (s : VM) : VM := snd (exec o s).

Definition run (ops : list Op) (s : VM) : VM :=
  foldl (fun s' o => step o s') s ops.

Inductive reachable : VM -> Prop :=
| reachable_boot : reachable boot
| reachable_step o s : reachable s -> reachable (step o s).

(** A byte access to an address of virtual page [p]. *)
Definition access_in_page (p : Z) (o : Op) : Prop :=
  match o with
  | OpRead _ a | OpWrite _ a _ => vpage a = p
  | _ => False
  end.

(** A page mapped onto a frame of the store with both permissions. *)
Definition mapped_rw (p : Z) (s : VM) : Prop :=
  exists e, pte p s = Some e
    /\ 0 <= phys_page e < NUM_PHYS_PAGES
    /\ has_flag e PTE_VALID = true
    /\ has_flag e PTE_READ = true /\ has_flag e PTE_WRITE = true.

(** How one call may move the counters: each by that many [++] at most. *)
Definition stats_advance (st st' : VMStats) : Prop :=
  (page_faults st' = page_faults st
   \/ page_faults st' = wrap32 (page_faults st + 1))
  /\ (reads st' = reads st \/ reads st' = wrap32 (reads st + 1))
  /\ (writes st' = writes st \/ writes st' = wrap32 (writes st + 1))
  /\ (translation_failures st' = translation_failures st
      \/ translation_failures st' = wrap32 (translation_failures st + 1)
      \/ translation_failures st' =
           wrap32 (wrap32 (translation_failures st + 1) + 1)).

(** No counter is about to wrap: a call increments [translation_failures]
    at most twice and each other counter at most once. *)
Definition no_wrap (st : VMStats) : Prop :=
  page_faults st + 1 < 2 ^ 32 /\ reads st + 1 < 2 ^ 32
  /\ writes st + 1 < 2 ^ 32 /\ translation_failures st + 2 < 2 ^ 32.

Definition stats_le (st st' : VMStats) : Prop :=
  page_faults st <= page_faults st' /\ reads st <= reads st'
  /\ writes st <= writes st'
  /\ translation_failures st <= translation_failures st'.

(** The state after the legal pages [ps], all distinct, have been touched
    for the first time in that order, starting with no page mapped and no
    frame used: the page touched [i]-th is mapped read-write onto frame
    [i], exactly the first [length ps] frames are in use, and no other
    page is mapped. *)
Definition touched_in_order (ps : list Z) (s : VM) : Prop :=
  vm_ok s
  /\ Forall (fun p => 0 <= p < L1_ENTRIES * L2_ENTRIES) ps
  /\ (forall k, (k < Z.to_nat NUM_PHYS_PAGES)%nat ->
        phys_pages_used s !!! k = bool_decide (k < length ps)%nat)
  /\ (forall i p, ps !! i = Some p ->
        pte p s = Some (mkL2Entry (Z.of_nat i) 7))
  /\ (forall q, 0 <= q < L1_ENTRIES * L2_ENTRIES -> q ∉ ps -> unmapped q s).

(** * Properties *)

(** ** Index arithmetic *)

Section Bits.

Lemma land_0xf_range (x : Z) : 0 <= Z.land x 0xf < 16.
Proof.
  change 0xf with (Z.ones 4). rewrite Z.land_ones by lia.
  apply Z.mod_pos_bound. lia.
Qed.

Lemma land_0xfff_range (x : Z) : 0 <= Z.land x 0xfff < 4096.
Proof.
  change 0xfff with (Z.ones 12). rewrite Z.land_ones by lia.
  apply Z.mod_pos_bound. lia.
Qed.

Lemma index_lt_16 (x : Z) : (Z.to_nat (Z.land x 0xf) < 16)%nat.
Proof. pose proof (land_0xf_range x). lia. Qed.

(** The first-level index [translate] takes from an address is the one
    [map_page] takes from its page number. *)
Lemma l1_of_vaddr (a : Z) :
  Z.land (Z.shiftr a 16) 0xf = Z.land (Z.shiftr (vpage a) 4) 0xf.
Proof. unfold vpage. rewrite Z.shiftr_shiftr by lia. reflexivity. Qed.

Lemma vpage_range (a : Z) :
  0 <= a < RAM_SIZE -> 0 <= vpage a < L1_ENTRIES * L2_ENTRIES.
Proof.
  unfold vpage. rewrite Z.shiftr_div_pow2 by lia.
  change RAM_SIZE with 1048576. change (L1_ENTRIES * L2_ENTRIES) with 256.
  change (2 ^ 12) with 4096. intros H. split.
  - apply Z.div_pos; lia.
  - apply Z.div_lt_upper_bound; lia.
Qed.

Lemma vpage_nonneg (a : Z) : 0 <= a -> 0 <= vpage a.
Proof. intros H. unfold vpage. apply Z.shiftr_nonneg. exact H. Qed.

(** An address lies below [RAM_SIZE] exactly when its page number is a
    legal one. *)
Lemma vpage_lt_iff (a : Z) :
  vpage a < L1_ENTRIES * L2_ENTRIES <-> a < RAM_SIZE.
Proof.
  unfold vpage. rewrite Z.shiftr_div_pow2 by lia.
  change RAM_SIZE with 1048576. change (L1_ENTRIES * L2_ENTRIES) with 256.
  change (2 ^ 12) with 4096.
  pose proof (Z.div_mod a 4096 ltac:(lia)) as Hd.
  pose proof (Z.mod_pos_bound a 4096 ltac:(lia)) as Hm. lia.
Qed.

Lemma wrap16_vpage (a : Z) : 0 <= a < RAM_SIZE -> wrap16 (vpage a) = vpage a.
Proof.
  intros H. pose proof (vpage_range a H) as Hp.
  change (L1_ENTRIES * L2_ENTRIES) with 256 in Hp.
  unfold wrap16. apply Z.mod_small. lia.
Qed.

Lemma wrap32_small (x : Z) : 0 <= x < 2 ^ 32 -> wrap32 x = x.
Proof. apply Z.mod_small. Qed.

(** The address [translate] computes stays inside the frame. *)
Lemma paddr_in_frame (pp a : Z) :
  0 <= pp < NUM_PHYS_PAGES ->
  let pa := wrap32 (pp * PAGE_SIZE + Z.land a 0xfff) in
  pp * PAGE_SIZE <= pa < pp * PAGE_SIZE + PAGE_SIZE /\ 0 <= pa < RAM_SIZE.
Proof.
  change NUM_PHYS_PAGES with 256. change PAGE_SIZE with 4096.
  change RAM_SIZE with 1048576. intros H pa. subst pa.
  pose proof (land_0xfff_range a) as Ho.
  rewrite wrap32_small by lia. lia.
Qed.

End Bits.

(** ** The translator *)

Section Translator.

(** [translate] returns the code of the branch it takes, writes the
    out-parameter on success only, and counts every failure. *)
Lemma translate_classified (a : Z) (out : option Z) (w : bool) (s : VM) :
  translate a out w s =
    match translate_outcome a w s with
    | Translated pa => (0, Some pa, s)
    | o => (outcome_code o, out, incr_translation_failures s)
    end.
Proof.
  unfold translate, translate_outcome.
  repeat (case_match; try reflexivity).
Qed.

(** When [translate] returns 0 it has written the out-parameter, so the
    access routines never use their local [paddr] unset. *)
Lemma translate_zero_writes (a : Z) (out : option Z) (w : bool) (s : VM) :
  fst (fst (translate a out w s)) = 0 ->
  exists pa, snd (fst (translate a out w s)) = Some pa /\ 0 <= pa < RAM_SIZE.
Proof.
  unfold translate.
  repeat (case_match; cbn [fst snd]; try discriminate).
  intros _. eexists. split; [reflexivity|].
  split; [apply Z.mod_pos_bound; lia|].
  match goal with H : (RAM_SIZE <=? wrap32 _) = false |- _ =>
    apply Z.leb_gt in H; exact H end.
Qed.

(** The branch taken, read off the entry of the address's page. *)
Lemma translate_outcome_pte (a : Z) (w : bool) (s : VM) :
  translate_outcome a w s =
    if RAM_SIZE <=? a then OutOfBounds
    else match pte (vpage a) s with
         | None => TranslationMiss
         | Some e =>
             if negb (entry_mapped e) then TranslationMiss
             else if negb (has_flag e (if w then PTE_WRITE else PTE_READ))
             then PermissionDenied
             else
               let pa := wrap32 (phys_page e * PAGE_SIZE + Z.land a 0xfff) in
               if RAM_SIZE <=? pa then InternalInconsistency pa
               else Translated pa
         end.
Proof.
  unfold translate_outcome, pte, entry_mapped, has_flag.
  rewrite <- l1_of_vaddr. fold (vpage a).
  destruct (RAM_SIZE <=? a); [reflexivity|].
  destruct (tables (page_table s) !!! _) as [t|]; [|reflexivity].
  cbv zeta.
  set (e := entries t !!! _).
  destruct (Z.ltb_spec (phys_page e) 0) as [Hn|Hn];
    destruct (Z.leb_spec 0 (phys_page e)) as [Hp|Hp]; try lia; cbn [orb andb negb].
  - reflexivity.
  - destruct (Z.land (flags e) PTE_VALID =? 0); cbn [negb]; [reflexivity|].
    destruct w; cbn [andb negb];
      repeat (case_match; try reflexivity; try discriminate).
Qed.

End Translator.

(** ** The frame allocator *)

Section Allocator.

(** What the scan of [n] slots from [i] returns: the first free slot,
    taken, or -1 and the state as it was when all of them are used. *)
Lemma allocate_scan_spec (n : nat) (i : Z) (s : VM) :
  0 <= i ->
  (exists j, i <= j < i + Z.of_nat n
      /\ phys_pages_used s !!! Z.to_nat j = false
      /\ (forall k, i <= k < j -> phys_pages_used s !!! Z.to_nat k = true)
      /\ allocate_scan n i s = (j, take_frame j s))
  \/ ((forall k, i <= k < i + Z.of_nat n ->
         phys_pages_used s !!! Z.to_nat k = true)
      /\ allocate_scan n i s = (-1, s)).
Proof.
  revert i. induction n as [|n IH]; intros i Hi.
  - right. split; [intros k Hk; lia | reflexivity].
  - cbn [allocate_scan].
    destruct (phys_pages_used s !!! Z.to_nat i) eqn:Hu; cbn [negb].
    + destruct (IH (i + 1) ltac:(lia)) as [(j & Hj & Hf & Hlow & Heq)|[Hall Heq]].
      * left. exists j. repeat split; try lia; try assumption.
        intros k Hk. destruct (Z.eq_dec k i) as [->|Hne]; [exact Hu|].
        apply Hlow. lia.
      * right. split; [|exact Heq].
        intros k Hk. destruct (Z.eq_dec k i) as [->|Hne]; [exact Hu|].
        apply Hall. lia.
    + left. exists i. repeat split; try lia; assumption.
Qed.

Lemma take_frame_RAM_zero (j : Z) (s : VM) (a : Z) :
  j * PAGE_SIZE <= a < j * PAGE_SIZE + PAGE_SIZE -> RAM (take_frame j s) a = 0.
Proof.
  intros H. cbn. unfold memset_zero.
  destruct (Z.leb_spec (j * PAGE_SIZE) a); [|lia].
  destruct (Z.ltb_spec a (j * PAGE_SIZE + PAGE_SIZE)); [reflexivity|lia].
Qed.

Lemma take_frame_RAM_other (j : Z) (s : VM) (a : Z) :
  ~ (j * PAGE_SIZE <= a < j * PAGE_SIZE + PAGE_SIZE) ->
  RAM (take_frame j s) a = RAM s a.
Proof.
  intros H. cbn. unfold memset_zero.
  destruct (Z.leb_spec (j * PAGE_SIZE) a); [|reflexivity].
  destruct (Z.ltb_spec a (j * PAGE_SIZE + PAGE_SIZE)); [lia|reflexivity].
Qed.

Lemma take_frame_marks (j : Z) (s : VM) :
  (Z.to_nat j < length (phys_pages_used s))%nat ->
  phys_pages_used (take_frame j s) !!! Z.to_nat j = true.
Proof. intros H. cbn. apply list_lookup_total_insert_eq. exact H. Qed.

(** With a free frame, [allocate_phys_page] takes the lowest one. *)
Lemma allocate_phys_page_free (s : VM) (i : Z) :
  frame_free i s ->
  exists j, allocate_phys_page s = (j, take_frame j s)
    /\ frame_free j s /\ (forall k, frame_free k s -> j <= k).
Proof.
  intros [Hi Hfree]. unfold allocate_phys_page.
  destruct (allocate_scan_spec (Z.to_nat NUM_PHYS_PAGES) 0 s ltac:(lia))
    as [(j & Hj & Hf & Hlow & Heq)|[Hall _]].
  - exists j. split; [exact Heq|]. split.
    + split; [|exact Hf]. change NUM_PHYS_PAGES with 256 in *. lia.
    + intros k [Hk Hkf]. destruct (Z.le_gt_cases j k) as [|Hlt]; [assumption|].
      rewrite Hlow in Hkf by lia. discriminate.
  - rewrite Hall in Hfree; [discriminate|].
    change NUM_PHYS_PAGES with 256 in *. lia.
Qed.

(** With no free frame it returns -1 and changes nothing. *)
Lemma allocate_phys_page_full (s : VM) :
  (forall i, 0 <= i < NUM_PHYS_PAGES -> phys_pages_used s !!! Z.to_nat i = true) ->
  allocate_phys_page s = (-1, s).
Proof.
  intros Hall. unfold allocate_phys_page.
  destruct (allocate_scan_spec (Z.to_nat NUM_PHYS_PAGES) 0 s ltac:(lia))
    as [(j & Hj & Hf & _ & _)|[_ Heq]]; [|exact Heq].
  rewrite Hall in Hf; [discriminate|].
  change NUM_PHYS_PAGES with 256 in *. lia.
Qed.

(** Either way the result is -1 or a frame index. *)
Lemma allocate_phys_page_cases (s : VM) :
  allocate_phys_page s = (-1, s)
  \/ exists j, 0 <= j < NUM_PHYS_PAGES /\ allocate_phys_page s = (j, take_frame j s).
Proof.
  unfold allocate_phys_page.
  destruct (allocate_scan_spec (Z.to_nat NUM_PHYS_PAGES) 0 s ltac:(lia))
    as [(j & Hj & _ & _ & Heq)|[_ Heq]]; [right|left; exact Heq].
  exists j. split; [|exact Heq]. change NUM_PHYS_PAGES with 256 in *. lia.
Qed.

End Allocator.

(** ** The page table *)

Section PageTable.

Lemma boot_ok : vm_ok boot.
Proof.
  repeat split; cbn; try reflexivity.
  apply Forall_replicate. exact I.
Qed.

Lemma init_vm_ok (s : VM) : vm_ok (init_vm s).
Proof.
  repeat split; cbn; try reflexivity.
  apply Forall_replicate. exact I.
Qed.

Lemma fresh_table_ok :
  table_ok (mkL2Table (replicate (Z.to_nat L2_ENTRIES) (mkL2Entry (-1) 0))).
Proof.
  split; cbn -[replicate].
  - apply length_replicate.
  - apply Forall_replicate. unfold entry_ok. cbn. reflexivity.
Qed.

Lemma slot_lookup_ok (s : VM) (i : nat) (t : L2Table) :
  vm_ok s -> tables (page_table s) !!! i = Some t -> table_ok t.
Proof.
  intros (Hlen & Hall & _) Ht.
  destruct (decide (i < length (tables (page_table s)))%nat) as [Hi|Hi].
  - pose proof (Forall_lookup_total_1 _ _ i Hall Hi) as H.
    rewrite Ht in H. exact H.
  - rewrite list_lookup_total_alt, lookup_ge_None_2 in Ht by lia.
    discriminate.
Qed.

(** The table [map_page] writes into: the one in place, or a fresh one. *)
Lemma map_page_slot_ok (m : bool) (s : VM) (i : nat) (t : L2Table) :
  vm_ok s ->
  match tables (page_table s) !!! i with
  | Some t' => Some t'
  | None => allocate_L2 m
  end = Some t ->
  table_ok t.
Proof.
  intros Hok. destruct (tables (page_table s) !!! i) as [t'|] eqn:Hs.
  - intros [= <-]. eapply slot_lookup_ok; eassumption.
  - unfold allocate_L2. destruct m; [|discriminate].
    intros [= <-]. apply fresh_table_ok.
Qed.

Lemma pte_set_tables (v : Z) (s : VM) (t : L2Table) :
  vm_ok s ->
  pte v (set_tables
           (<[Z.to_nat (Z.land (Z.shiftr v 4) 0xf) := Some t]>
              (tables (page_table s))) s)
  = Some (entries t !!! Z.to_nat (Z.land v 0xf)).
Proof.
  intros (Hlen & _). unfold pte. cbn [set_tables page_table tables].
  rewrite list_lookup_total_insert_eq; [reflexivity|].
  rewrite Hlen. apply index_lt_16.
Qed.

(** [map_page] rejects an illegal page or frame and changes nothing. *)
Lemma map_page_out_of_bounds (m : bool) (v f fl : Z) (s : VM) :
  L1_ENTRIES * L2_ENTRIES <= v \/ NUM_PHYS_PAGES <= f ->
  map_page m v f fl s = (-1, s).
Proof.
  intros H. unfold map_page.
  destruct (Z.leb_spec (L1_ENTRIES * L2_ENTRIES) v); [reflexivity|].
  destruct (Z.leb_spec NUM_PHYS_PAGES f); [reflexivity|lia].
Qed.

(** A failing [map_page] changes nothing. *)
Lemma map_page_cases (m : bool) (v f fl : Z) (s : VM) :
  map_page m v f fl s = (-1, s) \/ fst (map_page m v f fl s) = 0.
Proof.
  unfold map_page. repeat case_match; auto.
Qed.

(** With legal arguments it fails only when the second-level table is
    absent and cannot be allocated. *)
Lemma map_page_no_memory (v f fl : Z) (s : VM) :
  pte v s = None -> map_page false v f fl s = (-1, s).
Proof.
  unfold pte, map_page. intros H.
  repeat case_match; try reflexivity; try discriminate.
Qed.

Lemma map_page_returns_0 (m : bool) (v f fl : Z) (s : VM) :
  v < L1_ENTRIES * L2_ENTRIES -> f < NUM_PHYS_PAGES ->
  pte v s <> None \/ m = true ->
  fst (map_page m v f fl s) = 0.
Proof.
  intros Hv Hf Hm. unfold map_page, pte in *.
  destruct (Z.leb_spec (L1_ENTRIES * L2_ENTRIES) v); [lia|].
  destruct (Z.leb_spec NUM_PHYS_PAGES f); [lia|].
  destruct (tables (page_table s) !!! _) as [t|]; [reflexivity|].
  destruct Hm as [Hm| ->]; [congruence|reflexivity].
Qed.

(** What a successful [map_page] leaves behind. *)
Lemma map_page_installs (m : bool) (v f fl : Z) (s s' : VM) :
  vm_ok s -> map_page m v f fl s = (0, s') ->
  pte v s' = Some (mkL2Entry f (wrap8 (Z.lor fl PTE_VALID)))
  /\ phys_pages_used s' = <[Z.to_nat f := true]> (phys_pages_used s)
  /\ RAM s' = RAM s /\ stats s' = stats s
  /\ v < L1_ENTRIES * L2_ENTRIES /\ f < NUM_PHYS_PAGES.
Proof.
  intros Hok. unfold map_page.
  destruct (Z.leb_spec (L1_ENTRIES * L2_ENTRIES) v); [discriminate|].
  destruct (Z.leb_spec NUM_PHYS_PAGES f); [discriminate|].
  cbv zeta.
  destruct (match tables (page_table s) !!! _ with
            | Some t' => Some t' | None => allocate_L2 m end) as [t|] eqn:Hs;
    [|discriminate].
  intros [= <-].
  apply map_page_slot_ok in Hs as [Hlen _]; [|exact Hok].
  repeat split; try assumption.
  change (pte v (set_used (<[Z.to_nat f:=true]> (phys_pages_used s))
     (set_tables (<[Z.to_nat (Z.land (Z.shiftr v 4) 0xf) :=
        Some (mkL2Table (<[Z.to_nat (Z.land v 0xf) :=
           mkL2Entry f (wrap8 (Z.lor fl PTE_VALID))]> (entries t)))]>
        (tables (page_table s))) s)))
    with (pte v (set_tables (<[Z.to_nat (Z.land (Z.shiftr v 4) 0xf) :=
        Some (mkL2Table (<[Z.to_nat (Z.land v 0xf) :=
           mkL2Entry f (wrap8 (Z.lor fl PTE_VALID))]> (entries t)))]>
        (tables (page_table s))) s)).
  rewrite pte_set_tables by exact Hok. cbn [entries]. f_equal.
  apply list_lookup_total_insert_eq. rewrite Hlen. apply index_lt_16.
Qed.

Lemma map_page_ok (m : bool) (v f fl : Z) (s : VM) :
  vm_ok s -> vm_ok (snd (map_page m v f fl s)).
Proof.
  intros Hok. unfold map_page.
  destruct (Z.leb_spec (L1_ENTRIES * L2_ENTRIES) v); [exact Hok|].
  destruct (Z.leb_spec NUM_PHYS_PAGES f) as [|Hf]; [exact Hok|].
  cbv zeta.
  destruct (match tables (page_table s) !!! _ with
            | Some t' => Some t' | None => allocate_L2 m end) as [t|] eqn:Hs;
    [|exact Hok].
  apply map_page_slot_ok in Hs as [Hlen Hall]; [|exact Hok].
  destruct Hok as (Hl1 & Hslots & Hused).
  repeat split; cbn.
  - rewrite length_insert. exact Hl1.
  - apply Forall_insert; [exact Hslots|]. split; cbn.
    + rewrite length_insert. exact Hlen.
    + apply Forall_insert; [exact Hall|]. exact Hf.
  - rewrite length_insert. exact Hused.
Qed.

End PageTable.

Section Unmap.

Lemma free_phys_page_ok (pp : Z) (s : VM) : vm_ok s -> vm_ok (free_phys_page pp s).
Proof.
  intros Hok. unfold free_phys_page. case_match; [|exact Hok].
  destruct Hok as (Hl1 & Hslots & Hused).
  repeat split; cbn; try assumption.
  rewrite length_insert. exact Hused.
Qed.

Lemma unmap_page_out_of_bounds (v : Z) (s : VM) :
  L1_ENTRIES * L2_ENTRIES <= v -> unmap_page v s = (-1, s).
Proof.
  intros H. unfold unmap_page.
  destruct (Z.leb_spec (L1_ENTRIES * L2_ENTRIES) v); [reflexivity|lia].
Qed.

(** A page whose second-level table does not exist: [unmap_page] takes
    the [if (!t) return -1] branch. *)
Lemma unmap_page_absent (v : Z) (s : VM) :
  pte v s = None -> unmap_page v s = (-1, s).
Proof.
  unfold pte, unmap_page. intros H.
  repeat case_match; try reflexivity; discriminate.
Qed.

(** A page whose second-level table exists: the frame the entry records
    is freed and the entry is cleared. *)
Lemma unmap_page_present (v : Z) (s : VM) (e : L2Entry) :
  vm_ok s -> v < L1_ENTRIES * L2_ENTRIES -> pte v s = Some e ->
  exists s', unmap_page v s = (0, s')
    /\ pte v s' = Some (mkL2Entry (-1) 0)
    /\ phys_pages_used s' =
         (if 0 <=? phys_page e
          then <[Z.to_nat (phys_page e) := false]> (phys_pages_used s)
          else phys_pages_used s)
    /\ RAM s' = RAM s /\ stats s' = stats s.
Proof.
  intros Hok Hv. unfold pte, unmap_page.
  destruct (Z.leb_spec (L1_ENTRIES * L2_ENTRIES) v); [lia|]. cbv zeta.
  destruct (tables (page_table s) !!! _) as [t|] eqn:Ht; [|discriminate].
  intros [= <-]. eexists. split; [reflexivity|].
  pose proof (slot_lookup_ok _ _ _ Hok Ht) as [Hlen Hall].
  assert (Hin : (Z.to_nat (Z.land v 0xf) < length (entries t))%nat)
    by (rewrite Hlen; apply index_lt_16).
  pose proof (Forall_lookup_total_1 _ _ _ Hall Hin) as He.
  unfold entry_ok in He.
  set (e := entries t !!! Z.to_nat (Z.land v 0xf)) in *.
  assert (Hfree : (if 0 <=? phys_page e then free_phys_page (phys_page e) s else s)
                  = set_used (if 0 <=? phys_page e
                              then <[Z.to_nat (phys_page e) := false]> (phys_pages_used s)
                              else phys_pages_used s) s).
  { unfold free_phys_page.
    destruct (Z.leb_spec 0 (phys_page e)); cbn [andb].
    - destruct (Z.ltb_spec (phys_page e) NUM_PHYS_PAGES); [reflexivity|lia].
    - destruct s; reflexivity. }
  rewrite Hfree. repeat split.
  unfold pte. cbn [set_tables set_used page_table tables].
  rewrite list_lookup_total_insert_eq
    by (destruct Hok as [-> _]; apply index_lt_16).
  cbn [entries]. f_equal. apply list_lookup_total_insert_eq. exact Hin.
Qed.

Lemma unmap_page_ok (v : Z) (s : VM) : vm_ok s -> vm_ok (snd (unmap_page v s)).
Proof.
  intros Hok. unfold unmap_page.
  destruct (L1_ENTRIES * L2_ENTRIES <=? v); [exact Hok|]. cbv zeta.
  destruct (tables (page_table s) !!! _) as [t|] eqn:Ht; [|exact Hok].
  pose proof (slot_lookup_ok _ _ _ Hok Ht) as [Hlen Hall].
  assert (Hok1 : vm_ok (if 0 <=? phys_page (entries t !!! Z.to_nat (Z.land v 0xf))
                        then free_phys_page (phys_page (entries t !!! Z.to_nat (Z.land v 0xf))) s
                        else s))
    by (case_match; [apply free_phys_page_ok|]; exact Hok).
  destruct Hok1 as (Hl1 & Hslots & Hused).
  repeat split; cbn.
  - rewrite length_insert. exact Hl1.
  - apply Forall_insert; [exact Hslots|]. split; cbn.
    + rewrite length_insert. exact Hlen.
    + apply Forall_insert; [exact Hall|]. unfold entry_ok. cbn. reflexivity.
  - exact Hused.
Qed.

End Unmap.

(** ** The fault handler and the access routines *)

Section Access.

Lemma vm_ok_same_tables (s s' : VM) :
  page_table s' = page_table s ->
  length (phys_pages_used s') = length (phys_pages_used s) ->
  vm_ok s -> vm_ok s'.
Proof. unfold vm_ok. intros -> ->. tauto. Qed.

Lemma translate_state (a : Z) (out : option Z) (w : bool) (s : VM) :
  snd (translate a out w s) = s
  \/ snd (translate a out w s) = incr_translation_failures s.
Proof.
  rewrite translate_classified.
  destruct (translate_outcome a w s); cbn; auto.
Qed.

Lemma translate_ok (a : Z) (out : option Z) (w : bool) (s : VM) :
  vm_ok s -> vm_ok (snd (translate a out w s)).
Proof.
  intros Hok. destruct (translate_state a out w s) as [-> | ->];
    [exact Hok|]. revert Hok. apply vm_ok_same_tables; reflexivity.
Qed.

Lemma allocate_phys_page_ok (s : VM) :
  vm_ok s -> vm_ok (snd (allocate_phys_page s)).
Proof.
  intros Hok.
  destruct (allocate_phys_page_cases s) as [-> | (j & _ & ->)]; [exact Hok|].
  revert Hok. apply vm_ok_same_tables; cbn; [reflexivity|].
  apply length_insert.
Qed.

Lemma page_fault_handler_ok (m : bool) (v : Z) (s : VM) :
  vm_ok s -> vm_ok (snd (page_fault_handler m v s)).
Proof.
  intros Hok. unfold page_fault_handler.
  assert (Hok1 : vm_ok (incr_page_faults s))
    by (revert Hok; apply vm_ok_same_tables; reflexivity).
  pose proof (allocate_phys_page_ok _ Hok1) as Hok2.
  destruct (allocate_phys_page (incr_page_faults s)) as [pp s2].
  cbn [snd] in Hok2. case_match; [exact Hok2|].
  apply map_page_ok. exact Hok2.
Qed.

(** The fault handler counts the fault before anything else, and nothing
    it calls touches the counters. *)
Lemma page_fault_handler_stats (m : bool) (v : Z) (s : VM) :
  stats (snd (page_fault_handler m v s)) = stats (incr_page_faults s).
Proof.
  unfold page_fault_handler.
  destruct (allocate_phys_page_cases (incr_page_faults s))
    as [-> | (j & Hj & ->)].
  - reflexivity.
  - destruct (Z.ltb_spec j 0); [reflexivity|].
    unfold map_page. repeat case_match; reflexivity.
Qed.

(** *** [write_vmem] by the outcome of its first [translate] *)

Lemma write_vmem_hit (m : bool) (a val pa : Z) (s : VM) :
  translate_outcome a true s = Translated pa ->
  write_vmem m a val s = (0, incr_writes (set_RAM (store pa val (RAM s)) s)).
Proof.
  intros H. unfold write_vmem. rewrite translate_classified, H. reflexivity.
Qed.

Lemma write_vmem_denied (m : bool) (a val : Z) (s : VM) :
  translate_outcome a true s = PermissionDenied ->
  write_vmem m a val s = (-1, incr_translation_failures s).
Proof.
  intros H. unfold write_vmem. rewrite translate_classified, H. reflexivity.
Qed.

Lemma write_vmem_fault (m : bool) (a val : Z) (s : VM) :
  outcome_code (translate_outcome a true s) = -1 ->
  write_vmem m a val s =
    let '(r, s2) := page_fault_handler m (wrap16 (vpage a))
                      (incr_translation_failures s) in
    if negb (r =? 0) then (-1, s2)
    else match translate_outcome a true s2 with
         | Translated pa =>
             (0, incr_writes (set_RAM (store pa val (RAM s2)) s2))
         | _ => (-1, incr_translation_failures s2)
         end.
Proof.
  intros H. unfold write_vmem. rewrite translate_classified.
  fold (vpage a).
  destruct (translate_outcome a true s); try discriminate H; cbn -[wrap16];
    destruct (page_fault_handler _ _ _) as [r s2];
    destruct (negb (r =? 0)); try reflexivity;
    rewrite translate_classified;
    destruct (translate_outcome a true s2); reflexivity.
Qed.

(** *** [read_vmem] by the outcome of its first [translate] *)

Lemma read_vmem_hit (m : bool) (a pa : Z) (out : option Z) (s : VM) :
  translate_outcome a false s = Translated pa ->
  read_vmem m a out s = (0, Some (RAM s pa), incr_reads s).
Proof.
  intros H. unfold read_vmem. rewrite translate_classified, H. reflexivity.
Qed.

Lemma read_vmem_denied (m : bool) (a : Z) (out : option Z) (s : VM) :
  translate_outcome a false s = PermissionDenied ->
  read_vmem m a out s = (-1, out, incr_translation_failures s).
Proof.
  intros H. unfold read_vmem. rewrite translate_classified, H. reflexivity.
Qed.

Lemma read_vmem_fault (m : bool) (a : Z) (out : option Z) (s : VM) :
  outcome_code (translate_outcome a false s) = -1 ->
  read_vmem m a out s =
    let '(r, s2) := page_fault_handler m (wrap16 (vpage a))
                      (incr_translation_failures s) in
    if negb (r =? 0) then (-1, out, s2)
    else match translate_outcome a false s2 with
         | Translated pa => (0, Some (RAM s2 pa), incr_reads s2)
         | _ => (-1, out, incr_translation_failures s2)
         end.
Proof.
  intros H. unfold read_vmem. rewrite translate_classified.
  fold (vpage a).
  destruct (translate_outcome a false s); try discriminate H; cbn -[wrap16];
    destruct (page_fault_handler _ _ _) as [r s2];
    destruct (negb (r =? 0)); try reflexivity;
    rewrite translate_classified;
    destruct (translate_outcome a false s2); reflexivity.
Qed.

Lemma outcome_code_cases (o : TranslateOutcome) :
  (exists pa, o = Translated pa) \/ o = PermissionDenied
  \/ outcome_code o = -1.
Proof. destruct o; cbn; eauto. Qed.

Lemma write_vmem_ok (m : bool) (a val : Z) (s : VM) :
  vm_ok s -> vm_ok (snd (write_vmem m a val s)).
Proof.
  intros Hok.
  destruct (outcome_code_cases (translate_outcome a true s))
    as [[pa H] | [H | H]].
  - rewrite (write_vmem_hit _ _ _ _ _ H). revert Hok.
    apply vm_ok_same_tables; reflexivity.
  - rewrite (write_vmem_denied _ _ _ _ H). revert Hok.
    apply vm_ok_same_tables; reflexivity.
  - rewrite (write_vmem_fault _ _ _ _ H).
    assert (Hok1 : vm_ok (incr_translation_failures s))
      by (revert Hok; apply vm_ok_same_tables; reflexivity).
    pose proof (page_fault_handler_ok m (wrap16 (vpage a)) _ Hok1) as Hok2.
    destruct (page_fault_handler _ _ _) as [r s2]. cbn [snd] in Hok2.
    destruct (negb (r =? 0)); [exact Hok2|].
    destruct (translate_outcome a true s2); cbn [snd]; revert Hok2;
      apply vm_ok_same_tables; reflexivity.
Qed.

Lemma read_vmem_ok (m : bool) (a : Z) (out : option Z) (s : VM) :
  vm_ok s -> vm_ok (snd (read_vmem m a out s)).
Proof.
  intros Hok.
  destruct (outcome_code_cases (translate_outcome a false s))
    as [[pa H] | [H | H]].
  - rewrite (read_vmem_hit _ _ _ _ _ H). revert Hok.
    apply vm_ok_same_tables; reflexivity.
  - rewrite (read_vmem_denied _ _ _ _ H). revert Hok.
    apply vm_ok_same_tables; reflexivity.
  - rewrite (read_vmem_fault _ _ _ _ H).
    assert (Hok1 : vm_ok (incr_translation_failures s))
      by (revert Hok; apply vm_ok_same_tables; reflexivity).
    pose proof (page_fault_handler_ok m (wrap16 (vpage a)) _ Hok1) as Hok2.
    destruct (page_fault_handler _ _ _) as [r s2]. cbn [snd] in Hok2.
    destruct (negb (r =? 0)); [exact Hok2|].
    destruct (translate_outcome a false s2); cbn [snd]; revert Hok2;
      apply vm_ok_same_tables; reflexivity.
Qed.

End Access.

(** ** Reachable states *)

Section Reachable.

Lemma free_pages_loop_shape (n i : nat) (ts : list (option L2Table)) :
  length (free_pages_loop n i ts) = length ts
  /\ (Forall slot_ok ts -> Forall slot_ok (free_pages_loop n i ts)).
Proof.
  revert i ts. induction n as [|n IH]; intros i ts; cbn [free_pages_loop].
  - split; [reflexivity|tauto].
  - destruct (ts !!! i).
    + destruct (IH (S i) (<[i := None]> ts)) as [Hlen Hall].
      split; [rewrite Hlen; apply length_insert|].
      intros H. apply Hall. apply Forall_insert; [exact H|exact I].
    + apply IH.
Qed.

Lemma free_pages_ok (s : VM) : vm_ok s -> vm_ok (free_pages s).
Proof.
  intros (Hl1 & Hslots & Hused). unfold free_pages.
  destruct (free_pages_loop_shape (Z.to_nat L1_ENTRIES) 0 (tables (page_table s)))
    as [Hlen Hall].
  repeat split; cbn [set_tables page_table tables phys_pages_used].
  - rewrite Hlen. exact Hl1.
  - apply Hall. exact Hslots.
  - exact Hused.
Qed.

Lemma step_ok (o : Op) (s : VM) : vm_ok s -> vm_ok (step o s).
Proof.
  intros Hok. unfold step. destruct o; cbn [exec].
  - apply init_vm_ok.
  - apply map_page_ok. exact Hok.
  - apply unmap_page_ok. exact Hok.
  - pose proof (read_vmem_ok malloc_ok vaddr None s Hok) as H.
    destruct (read_vmem malloc_ok vaddr None s) as [[r o] s']. exact H.
  - apply write_vmem_ok. exact Hok.
  - pose proof (translate_ok vaddr None is_write s Hok) as H.
    destruct (translate vaddr None is_write s) as [[r o] s']. exact H.
  - apply free_pages_ok. exact Hok.
Qed.

(** Every reachable state has arrays of the declared sizes, and every
    entry records either no frame or a frame below [NUM_PHYS_PAGES]. *)
Lemma reachable_ok (s : VM) : reachable s -> vm_ok s.
Proof.
  induction 1 as [|o s _ IH]; [apply boot_ok|].
  apply step_ok. exact IH.
Qed.

Lemma pte_entry_ok (v : Z) (s : VM) (e : L2Entry) :
  vm_ok s -> pte v s = Some e -> phys_page e < NUM_PHYS_PAGES.
Proof.
  intros Hok. unfold pte.
  destruct (tables (page_table s) !!! _) as [t|] eqn:Ht; [|discriminate].
  intros [= <-].
  pose proof (slot_lookup_ok _ _ _ Hok Ht) as [Hlen Hall].
  apply (Forall_lookup_total_1 _ _ _ Hall).
  rewrite Hlen. apply index_lt_16.
Qed.

End Reachable.

(** * The claims of the specification *)

(** ** Frame allocator *)

(** C6. [allocate_phys_page] scans the frames in ascending order.  When some
    frame is free it returns the lowest free index, marks that frame used
    and leaves all [PAGE_SIZE] bytes of the frame zero (the rest of the
    store, the page table and the counters being untouched); when every
    frame is used it returns -1 and changes no state. *)
Theorem allocate_phys_page_first_free (s : VM) :
  vm_ok s ->
  ((exists i, frame_free i s) ->
   exists j,
     fst (allocate_phys_page s) = j
     /\ frame_free j s /\ (forall k, frame_free k s -> j <= k)
     /\ phys_pages_used (snd (allocate_phys_page s))
        = <[Z.to_nat j := true]> (phys_pages_used s)
     /\ phys_pages_used (snd (allocate_phys_page s)) !!! Z.to_nat j = true
     /\ (forall a, j * PAGE_SIZE <= a < j * PAGE_SIZE + PAGE_SIZE ->
           RAM (snd (allocate_phys_page s)) a = 0)
     /\ (forall a, ~ (j * PAGE_SIZE <= a < j * PAGE_SIZE + PAGE_SIZE) ->
           RAM (snd (allocate_phys_page s)) a = RAM s a)
     /\ page_table (snd (allocate_phys_page s)) = page_table s
     /\ stats (snd (allocate_phys_page s)) = stats s)
  /\ ((forall i, ~ frame_free i s) -> allocate_phys_page s = (-1, s)).
Proof.
  intros (_ & _ & Hused). split.
  - intros [i Hi].
    destruct (allocate_phys_page_free s i Hi) as (j & -> & Hj & Hleast).
    exists j. cbn [fst snd].
    split; [reflexivity|]. split; [exact Hj|]. split; [exact Hleast|].
    split; [reflexivity|]. split.
    { apply take_frame_marks. rewrite Hused. destruct Hj as [Hj _]. lia. }
    split; [intros a Ha; apply take_frame_RAM_zero; exact Ha|].
    split; [intros a Ha; apply take_frame_RAM_other; exact Ha|].
    split; reflexivity.
  - intros Hnone. apply allocate_phys_page_full. intros i Hi.
    destruct (phys_pages_used s !!! Z.to_nat i) eqn:Hu; [reflexivity|].
    exfalso. apply (Hnone i). split; assumption.
Qed.

Lemma allocate_phys_page_first_free_witness :
  vm_ok boot /\ fst (allocate_phys_page boot) = 0
  /\ RAM (snd (allocate_phys_page boot)) 4095 = 0.
Proof.
  assert (Hok : vm_ok boot).
  { repeat split; try reflexivity. apply Forall_replicate. exact I. }
  assert (Hfree : frame_free 0 boot).
  { split; [change NUM_PHYS_PAGES with 256; lia | reflexivity]. }
  destruct (allocate_phys_page_first_free boot Hok) as [Hsome _].
  destruct (Hsome (ex_intro _ 0 Hfree))
    as (j & Hfst & [Hj _] & Hleast & _ & _ & Hzero & _).
  pose proof (Hleast 0 Hfree) as Hle.
  assert (Hj0 : j = 0) by lia. rewrite Hj0 in Hfst, Hzero.
  split; [exact Hok|]. split; [exact Hfst|].
  apply Hzero. change PAGE_SIZE with 4096. lia.
Defined.

(** ** Page table operations *)

Section Flags.

Lemma wrap8_lor_valid (fl : Z) :
  0 <= fl < 256 -> wrap8 (Z.lor fl PTE_VALID) = Z.lor fl PTE_VALID.
Proof.
  intros H. unfold wrap8, PTE_VALID. apply Z.mod_small.
  assert (Hnn : 0 <= Z.lor fl 1) by (apply Z.lor_nonneg; lia).
  split; [exact Hnn|].
  assert (Hpos : 0 < Z.lor fl 1).
  { destruct (Z.eq_dec (Z.lor fl 1) 0) as [E|E]; [|lia].
    apply Z.lor_eq_0_iff in E. lia. }
  apply Z.log2_lt_pow2; [exact Hpos|].
  rewrite Z.log2_lor by lia. change (Z.log2 1) with 0.
  destruct (Z.eq_dec fl 0) as [->|Hne]; [cbn; lia|].
  pose proof (proj1 (Z.log2_lt_pow2 fl 8 ltac:(lia)) ltac:(lia)). lia.
Qed.

(** In [fl | PTE_VALID] the valid bit is set and the two permission bits
    are the caller's. *)
Lemma lor_valid_bits (fl : Z) :
  Z.land (Z.lor fl PTE_VALID) PTE_VALID = PTE_VALID
  /\ Z.land (Z.lor fl PTE_VALID) PTE_WRITE = Z.land fl PTE_WRITE
  /\ Z.land (Z.lor fl PTE_VALID) PTE_READ = Z.land fl PTE_READ.
Proof.
  unfold PTE_VALID, PTE_WRITE, PTE_READ.
  rewrite !Z.land_lor_distr_l.
  change (Z.land 1 2) with 0. change (Z.land 1 4) with 0.
  change (Z.land 1 1) with 1. rewrite !Z.lor_0_r.
  split; [|split; reflexivity].
  apply Z.bits_inj'. intros n Hn.
  rewrite Z.lor_spec, Z.land_spec.
  destruct (Z.testbit 1 n); [apply orb_true_r|].
  rewrite andb_false_r. reflexivity.
Qed.

End Flags.

(** C7 (as amended).  [map_page v f flags] fails with -1 and changes no
    state when [v >= L1_ENTRIES * L2_ENTRIES] or [f >= NUM_PHYS_PAGES], and
    also when the second-level table of [v] is absent and cannot be
    allocated.  In every other case it returns 0, the entry of [v] then
    records frame [f] with flags [flags | PTE_VALID] (VALID set, READ and
    WRITE as the caller gave them), and frame [f] is marked used whatever
    it was before; the store and the counters are untouched. *)
Theorem map_page_spec (m : bool) (v f fl : Z) (s : VM) :
  vm_ok s -> 0 <= fl < 256 ->
  (L1_ENTRIES * L2_ENTRIES <= v \/ NUM_PHYS_PAGES <= f ->
   map_page m v f fl s = (-1, s))
  /\ (pte v s = None -> m = false -> map_page m v f fl s = (-1, s))
  /\ (v < L1_ENTRIES * L2_ENTRIES -> f < NUM_PHYS_PAGES ->
      pte v s <> None \/ m = true ->
      let s' := snd (map_page m v f fl s) in
      fst (map_page m v f fl s) = 0
      /\ pte v s' = Some (mkL2Entry f (Z.lor fl PTE_VALID))
      /\ Z.land (Z.lor fl PTE_VALID) PTE_VALID = PTE_VALID
      /\ Z.land (Z.lor fl PTE_VALID) PTE_WRITE = Z.land fl PTE_WRITE
      /\ Z.land (Z.lor fl PTE_VALID) PTE_READ = Z.land fl PTE_READ
      /\ phys_pages_used s' = <[Z.to_nat f := true]> (phys_pages_used s)
      /\ phys_pages_used s' !!! Z.to_nat f = true
      /\ RAM s' = RAM s /\ stats s' = stats s).
Proof.
  intros Hok Hfl. split; [apply map_page_out_of_bounds|]. split.
  - intros Hnone ->. apply map_page_no_memory. exact Hnone.
  - intros Hv Hf Hm s'.
    pose proof (map_page_returns_0 m v f fl s Hv Hf Hm) as Hret.
    destruct (map_page m v f fl s) as [r s1] eqn:Hmap.
    cbn [fst snd] in *. subst r s'.
    destruct (map_page_installs _ _ _ _ _ _ Hok Hmap)
      as (Hpte & Hused & Hram & Hstats & _).
    rewrite wrap8_lor_valid in Hpte by exact Hfl.
    destruct (lor_valid_bits fl) as (Hb1 & Hb2 & Hb3).
    repeat (split; [assumption || reflexivity|]).
    split; [|split; assumption].
    rewrite Hused. apply list_lookup_total_insert_eq.
    destruct Hok as (_ & _ & ->). change NUM_PHYS_PAGES with 256 in *. lia.
Qed.

Lemma map_page_spec_witness :
  pte 0xAB (snd (map_page true 0xAB 52 PTE_READ boot))
  = Some (mkL2Entry 52 (Z.lor PTE_READ PTE_VALID)).
Proof.
  refine (proj1 (proj2 (proj2 (proj2
    (map_page_spec true 0xAB 52 PTE_READ boot _ _)) _ _ _))).
  - repeat split; try reflexivity. apply Forall_replicate. exact I.
  - unfold PTE_READ. lia.
  - reflexivity.
  - reflexivity.
  - right. reflexivity.
Defined.

(** C7, as first stated, fails: legal arguments do not make [map_page]
    succeed when the second-level table has to be allocated and [malloc]
    returns NULL. *)
Lemma map_page_legal_arguments_may_fail :
  0 < L1_ENTRIES * L2_ENTRIES /\ 0 < NUM_PHYS_PAGES
  /\ fst (map_page false 0 0 (Z.lor PTE_READ PTE_WRITE) boot) = -1.
Proof. repeat split. Qed.

(** C2 (as amended).  [unmap_page v] returns -1 and changes nothing when
    [v >= 256], and also when [v < 256] but the second-level table owning
    [v] does not exist.  When the table exists it returns 0 and clears the
    entry to unmapped (no frame, no flags); if the entry recorded a frame,
    that frame is freed in the allocator state. *)
Theorem unmap_page_spec (v : Z) (s : VM) :
  vm_ok s ->
  (L1_ENTRIES * L2_ENTRIES <= v -> unmap_page v s = (-1, s))
  /\ (v < L1_ENTRIES * L2_ENTRIES -> pte v s = None ->
      unmap_page v s = (-1, s))
  /\ (forall e, v < L1_ENTRIES * L2_ENTRIES -> pte v s = Some e ->
      let s' := snd (unmap_page v s) in
      fst (unmap_page v s) = 0
      /\ pte v s' = Some (mkL2Entry (-1) 0)
      /\ unmapped v s'
      /\ (0 <= phys_page e ->
          phys_pages_used s'
          = <[Z.to_nat (phys_page e) := false]> (phys_pages_used s)
          /\ phys_pages_used s' !!! Z.to_nat (phys_page e) = false)
      /\ (phys_page e < 0 -> phys_pages_used s' = phys_pages_used s)
      /\ RAM s' = RAM s /\ stats s' = stats s).
Proof.
  intros Hok. split; [apply unmap_page_out_of_bounds|]. split.
  - intros _. apply unmap_page_absent.
  - intros e Hv Hpte s'.
    destruct (unmap_page_present v s e Hok Hv Hpte)
      as (s1 & Heq & Hpte' & Hused & Hram & Hstats).
    subst s'. rewrite Heq. cbn [fst snd].
    split; [reflexivity|]. split; [exact Hpte'|].
    split; [unfold unmapped; rewrite Hpte'; reflexivity|].
    split; [|split; [|split; assumption]].
    + intros Hpos. rewrite Hused.
      destruct (Z.leb_spec 0 (phys_page e)); [|lia].
      split; [reflexivity|]. apply list_lookup_total_insert_eq.
      pose proof (pte_entry_ok v s e Hok Hpte) as Hlt.
      destruct Hok as (_ & _ & ->). change NUM_PHYS_PAGES with 256 in *. lia.
    + intros Hneg. rewrite Hused.
      destruct (Z.leb_spec 0 (phys_page e)); [lia|reflexivity].
Qed.

Lemma unmap_page_spec_witness :
  vm_ok (snd (map_page true 6 40 (Z.lor PTE_READ PTE_WRITE) boot))
  /\ phys_pages_used
       (snd (unmap_page 6
               (snd (map_page true 6 40 (Z.lor PTE_READ PTE_WRITE) boot))))
     !!! 40%nat = false.
Proof.
  assert (Hok : vm_ok (snd (map_page true 6 40 (Z.lor PTE_READ PTE_WRITE) boot))).
  { repeat split; try reflexivity. vm_compute. repeat constructor. }
  split; [exact Hok|].
  refine (proj2 (proj1 (proj2 (proj2 (proj2 (proj2 (proj2
    (unmap_page_spec 6 _ Hok)) (mkL2Entry 40 7) _ _)))) _)).
  - reflexivity.
  - reflexivity.
  - cbn. lia.
Defined.

(** C2, as first stated, fails: on a page whose second-level table was
    never allocated [unmap_page] reports failure, not success. *)
Lemma unmap_page_without_table_fails :
  0 < L1_ENTRIES * L2_ENTRIES /\ pte 0 boot = None
  /\ unmap_page 0 boot = (-1, boot).
Proof. repeat split. Qed.

(** ** Access routines *)

Section Frames.

Lemma translate_outcome_same_tables (a : Z) (w : bool) (s s' : VM) :
  page_table s' = page_table s ->
  translate_outcome a w s' = translate_outcome a w s.
Proof. intros H. unfold translate_outcome. rewrite H. reflexivity. Qed.

Lemma pte_same_tables (v : Z) (s s' : VM) :
  page_table s' = page_table s -> pte v s' = pte v s.
Proof. intros H. unfold pte. rewrite H. reflexivity. Qed.

Lemma translate_out_of_bounds (a : Z) (w : bool) (s : VM) :
  RAM_SIZE <= a -> translate_outcome a w s = OutOfBounds.
Proof.
  intros H. unfold translate_outcome.
  destruct (Z.leb_spec RAM_SIZE a); [reflexivity|lia].
Qed.

(** An access beyond the address space is answered -1 by [translate],
    which the access routines take for a miss: the fault handler runs and
    counts a page fault. *)
Lemma write_vmem_out_of_bounds (m : bool) (a val : Z) (s : VM) :
  RAM_SIZE <= a ->
  fst (write_vmem m a val s) = -1
  /\ page_faults (stats (snd (write_vmem m a val s)))
     = wrap32 (page_faults (stats s) + 1).
Proof.
  intros Ha. rewrite write_vmem_fault
    by (rewrite translate_out_of_bounds by exact Ha; reflexivity).
  pose proof (page_fault_handler_stats m (wrap16 (vpage a))
                (incr_translation_failures s)) as Hst.
  destruct (page_fault_handler _ _ _) as [r s2]. cbn [snd] in Hst.
  destruct (negb (r =? 0)); cbn [fst snd].
  - rewrite Hst. split; reflexivity.
  - rewrite translate_out_of_bounds by exact Ha. cbn. rewrite Hst.
    split; reflexivity.
Qed.

Lemma read_vmem_out_of_bounds (m : bool) (a : Z) (out : option Z) (s : VM) :
  RAM_SIZE <= a ->
  fst (fst (read_vmem m a out s)) = -1
  /\ page_faults (stats (snd (read_vmem m a out s)))
     = wrap32 (page_faults (stats s) + 1).
Proof.
  intros Ha. rewrite read_vmem_fault
    by (rewrite translate_out_of_bounds by exact Ha; reflexivity).
  pose proof (page_fault_handler_stats m (wrap16 (vpage a))
                (incr_translation_failures s)) as Hst.
  destruct (page_fault_handler _ _ _) as [r s2]. cbn [snd] in Hst.
  destruct (negb (r =? 0)); cbn [fst snd].
  - rewrite Hst. split; reflexivity.
  - rewrite translate_out_of_bounds by exact Ha. cbn. rewrite Hst.
    split; reflexivity.
Qed.

End Frames.

(** The page number the access routines hand to the fault handler is
    truncated to 16 bits.  An out-of-range write whose page number
    truncates to a legal page makes the handler map that page afresh: here
    page 0, mapped read-only onto frame 5, ends up mapped read-write onto
    frame 0, the write itself still failing. *)
Lemma out_of_bounds_write_remaps_legal_page :
  pte 0 (snd (map_page true 0 5 PTE_READ boot)) = Some (mkL2Entry 5 5)
  /\ translate_outcome 0x10000000 true (snd (map_page true 0 5 PTE_READ boot))
     = OutOfBounds
  /\ fst (write_vmem true 0x10000000 0x11
            (snd (map_page true 0 5 PTE_READ boot))) = -1
  /\ pte 0 (snd (write_vmem true 0x10000000 0x11
                   (snd (map_page true 0 5 PTE_READ boot))))
     = Some (mkL2Entry 0 7).
Proof. repeat split. Qed.

(** C1 (the code departs from it).  The write of the bounds test,
    [write_vmem(0x200000, 0x11)] after [init_vm]: [translate] fails with
    OutOfBounds, not with a miss, and yet the fault handler runs.  The call
    returns -1, [page_faults] goes from 0 to 1, frame 0 is taken from the
    allocator and no page-table entry refers to it.  [read_vmem] at the
    same address does the same. *)
Theorem out_of_bounds_access_runs_fault_handler :
  translate_outcome 0x200000 true (init_vm boot) = OutOfBounds
  /\ fst (write_vmem true 0x200000 0x11 (init_vm boot)) = -1
  /\ page_faults (stats (init_vm boot)) = 0
  /\ page_faults (stats (snd (write_vmem true 0x200000 0x11 (init_vm boot)))) = 1
  /\ phys_pages_used (init_vm boot) !!! 0%nat = false
  /\ phys_pages_used (snd (write_vmem true 0x200000 0x11 (init_vm boot)))
     !!! 0%nat = true
  /\ page_table (snd (write_vmem true 0x200000 0x11 (init_vm boot)))
     = page_table (init_vm boot)
  /\ fst (fst (read_vmem true 0x200000 None (init_vm boot))) = -1
  /\ page_faults (stats (snd (read_vmem true 0x200000 None (init_vm boot)))) = 1
  /\ phys_pages_used (snd (read_vmem true 0x200000 None (init_vm boot)))
     !!! 0%nat = true.
Proof. repeat split. Qed.

Section Permissions.

(** An access to a mapped page that lacks the permission asked for. *)
Lemma translate_denied (a : Z) (w : bool) (s : VM) (e : L2Entry) :
  a < RAM_SIZE -> pte (vpage a) s = Some e -> entry_mapped e = true ->
  has_flag e (if w then PTE_WRITE else PTE_READ) = false ->
  translate_outcome a w s = PermissionDenied.
Proof.
  intros Ha Hpte Hmap Hperm. rewrite translate_outcome_pte, Hpte, Hmap, Hperm.
  destruct (Z.leb_spec RAM_SIZE a); [lia|reflexivity].
Qed.

(** An access to a mapped page that has the permission asked for, in a
    state whose entries record frames of the store. *)
Lemma translate_hit (a : Z) (w : bool) (s : VM) (e : L2Entry) :
  a < RAM_SIZE -> pte (vpage a) s = Some e ->
  0 <= phys_page e < NUM_PHYS_PAGES -> has_flag e PTE_VALID = true ->
  has_flag e (if w then PTE_WRITE else PTE_READ) = true ->
  translate_outcome a w s
  = Translated (phys_page e * PAGE_SIZE + Z.land a 0xfff).
Proof.
  intros Ha Hpte Hpp Hvalid Hperm.
  rewrite translate_outcome_pte, Hpte, Hperm.
  unfold entry_mapped. rewrite Hvalid.
  destruct (Z.leb_spec RAM_SIZE a); [lia|].
  destruct (Z.leb_spec 0 (phys_page e)); [|lia]. cbn [andb negb].
  destruct (paddr_in_frame (phys_page e) a Hpp) as [_ Hpa]. cbv zeta in Hpa.
  destruct (Z.leb_spec RAM_SIZE
              (wrap32 (phys_page e * PAGE_SIZE + Z.land a 0xfff))); [lia|].
  f_equal. apply wrap32_small.
  pose proof (land_0xfff_range a).
  change NUM_PHYS_PAGES with 256 in Hpp. change PAGE_SIZE with 4096. lia.
Qed.

End Permissions.

(** C4.  On a page that is mapped without WRITE permission (READ only, in
    particular) [write_vmem] at any address of the page fails: [translate]
    ends in PermissionDenied and the call returns -1 having only counted a
    translation failure, so [page_faults] is unchanged.  On a page mapped
    without READ permission (WRITE only, in particular) [read_vmem] fails
    in the same way and leaves the out-parameter alone.  Whenever the first
    [translate] ends in PermissionDenied the access routine returns at once:
    the fault handler is not run and nothing is retried. *)
Theorem permission_denied_is_terminal
    (m : bool) (a val : Z) (out : option Z) (s : VM) :
  a < RAM_SIZE ->
  (forall e, pte (vpage a) s = Some e -> entry_mapped e = true ->
     has_flag e PTE_WRITE = false ->
     translate_outcome a true s = PermissionDenied
     /\ write_vmem m a val s = (-1, incr_translation_failures s)
     /\ page_faults (stats (snd (write_vmem m a val s)))
        = page_faults (stats s))
  /\ (forall e, pte (vpage a) s = Some e -> entry_mapped e = true ->
        has_flag e PTE_READ = false ->
        translate_outcome a false s = PermissionDenied
        /\ read_vmem m a out s = (-1, out, incr_translation_failures s)
        /\ page_faults (stats (snd (read_vmem m a out s)))
           = page_faults (stats s))
  /\ (translate_outcome a true s = PermissionDenied ->
      write_vmem m a val s = (-1, incr_translation_failures s))
  /\ (translate_outcome a false s = PermissionDenied ->
      read_vmem m a out s = (-1, out, incr_translation_failures s)).
Proof.
  intros Ha. split; [|split; [|split]].
  - intros e Hpte Hmap Hperm.
    pose proof (translate_denied a true s e Ha Hpte Hmap Hperm) as Hden.
    rewrite (write_vmem_denied m a val s Hden). repeat split. exact Hden.
  - intros e Hpte Hmap Hperm.
    pose proof (translate_denied a false s e Ha Hpte Hmap Hperm) as Hden.
    rewrite (read_vmem_denied m a out s Hden). repeat split. exact Hden.
  - apply write_vmem_denied.
  - apply read_vmem_denied.
Qed.

Lemma permission_denied_is_terminal_witness :
  write_vmem true 0x001032 0xDD (snd (map_page true 1 20 PTE_READ boot))
  = (-1, incr_translation_failures (snd (map_page true 1 20 PTE_READ boot)))
  /\ read_vmem true 0x002100 None (snd (map_page true 2 21 PTE_WRITE boot))
     = (-1, None,
        incr_translation_failures (snd (map_page true 2 21 PTE_WRITE boot))).
Proof.
  split.
  - refine (proj1 (proj2 (proj1
      (permission_denied_is_terminal true 0x001032 0xDD None
         (snd (map_page true 1 20 PTE_READ boot)) _)
      (mkL2Entry 20 5) _ _ _))); reflexivity.
  - refine (proj1 (proj2 (proj1 (proj2
      (permission_denied_is_terminal true 0x002100 0 None
         (snd (map_page true 2 21 PTE_WRITE boot)) _))
      (mkL2Entry 21 3) _ _ _))); reflexivity.
Defined.

Section RoundTrip.

Lemma store_same (a v : Z) (ram : Z -> Z) : store a v ram a = v.
Proof. unfold store. rewrite Z.eqb_refl. reflexivity. Qed.

Lemma rw_flags : wrap8 (Z.lor (Z.lor PTE_READ PTE_WRITE) PTE_VALID) = 7.
Proof. reflexivity. Qed.

End RoundTrip.

(** C5.  After [map_page p f (PTE_READ | PTE_WRITE)] has succeeded, for a
    page [p < 256] and a frame [f < 256], [write_vmem] of a byte [b] at any
    address of page [p] succeeds, and [read_vmem] at the same address then
    succeeds and yields [b]. *)
Theorem map_write_read_round_trip
    (m m1 m2 : bool) (p f b a : Z) (out : option Z) (s s1 : VM) :
  vm_ok s ->
  0 <= p < L1_ENTRIES * L2_ENTRIES -> 0 <= f < NUM_PHYS_PAGES ->
  vpage a = p ->
  map_page m p f (Z.lor PTE_READ PTE_WRITE) s = (0, s1) ->
  fst (write_vmem m1 a b s1) = 0
  /\ fst (read_vmem m2 a out (snd (write_vmem m1 a b s1))) = (0, Some b).
Proof.
  intros Hok Hp Hf Ha Hmap.
  destruct (map_page_installs _ _ _ _ _ _ Hok Hmap) as (Hpte & _).
  rewrite rw_flags in Hpte. rewrite <- Ha in Hpte.
  assert (Hlt : a < RAM_SIZE) by (apply vpage_lt_iff; lia).
  pose proof (translate_hit a true s1 _ Hlt Hpte Hf eq_refl eq_refl) as Hw.
  pose proof (translate_hit a false s1 _ Hlt Hpte Hf eq_refl eq_refl) as Hr.
  cbn [phys_page] in Hw, Hr.
  set (pa := f * PAGE_SIZE + Z.land a 0xfff) in *.
  rewrite (write_vmem_hit m1 a b pa s1 Hw). cbn [fst snd].
  split; [reflexivity|].
  rewrite <- (translate_outcome_same_tables a false s1
                (incr_writes (set_RAM (store pa b (RAM s1)) s1)) eq_refl) in Hr.
  rewrite (read_vmem_hit m2 a pa out _ Hr).
  cbn [fst snd RAM incr_writes set_stats set_RAM].
  rewrite store_same. reflexivity.
Qed.

Lemma map_write_read_round_trip_witness :
  vm_ok boot
  /\ fst (write_vmem false 0x000100 0xAA
            (snd (map_page true 0 10 (Z.lor PTE_READ PTE_WRITE) boot))) = 0
  /\ fst (read_vmem false 0x000100 None
            (snd (write_vmem false 0x000100 0xAA
                    (snd (map_page true 0 10 (Z.lor PTE_READ PTE_WRITE) boot)))))
     = (0, Some 0xAA).
Proof.
  assert (Hok : vm_ok boot).
  { repeat split; try reflexivity. apply Forall_replicate. exact I. }
  split; [exact Hok|].
  apply (map_write_read_round_trip true false false 0 10 0xAA 0x000100 None
           boot _ Hok).
  - vm_compute. split; [discriminate|reflexivity].
  - vm_compute. split; [discriminate|reflexivity].
  - reflexivity.
  - reflexivity.
Defined.

Section DemandPaging.

Lemma translate_miss (a : Z) (w : bool) (s : VM) :
  a < RAM_SIZE -> unmapped (vpage a) s ->
  translate_outcome a w s = TranslationMiss.
Proof.
  intros Ha Hun. rewrite translate_outcome_pte. unfold unmapped in Hun.
  destruct (Z.leb_spec RAM_SIZE a); [lia|].
  destruct (pte (vpage a) s) as [e|]; [|reflexivity].
  rewrite Hun. reflexivity.
Qed.

(** With a free frame, and the second-level table in place or
    allocatable, the fault handler maps the page read-write onto the
    lowest free frame. *)
Lemma page_fault_handler_maps (m : bool) (v i : Z) (s : VM) :
  vm_ok s -> frame_free i s -> v < L1_ENTRIES * L2_ENTRIES ->
  pte v s <> None \/ m = true ->
  exists j s', page_fault_handler m v s = (0, s')
    /\ frame_free j s /\ (forall k, frame_free k s -> j <= k)
    /\ pte v s' = Some (mkL2Entry j 7)
    /\ stats s' = stats (incr_page_faults s).
Proof.
  intros Hok Hfree Hv Hm.
  pose proof (page_fault_handler_stats m v s) as Hst.
  unfold page_fault_handler in *.
  destruct (allocate_phys_page_free (incr_page_faults s) i Hfree)
    as (j & Heq & Hj & Hleast).
  rewrite Heq in *. destruct Hj as [Hjr Hjf].
  destruct (Z.ltb_spec j 0); [lia|].
  set (s2 := take_frame j (incr_page_faults s)) in *.
  assert (Hok2 : vm_ok s2).
  { revert Hok. apply vm_ok_same_tables; cbn; [reflexivity|].
    apply length_insert. }
  pose proof (map_page_returns_0 m v j (Z.lor PTE_READ PTE_WRITE) s2 Hv
                (proj2 Hjr) Hm) as Hret.
  destruct (map_page m v j (Z.lor PTE_READ PTE_WRITE) s2) as [r s3] eqn:Hmap.
  cbn [fst snd] in *. subst r.
  destruct (map_page_installs _ _ _ _ _ _ Hok2 Hmap) as (Hpte & _).
  rewrite rw_flags in Hpte.
  exists j, s3.
  split; [reflexivity|]. split; [split; assumption|].
  split; [exact Hleast|]. split; [exact Hpte|exact Hst].
Qed.

(** An access to a page that is mapped read-write succeeds without a
    fault and leaves the page table as it is. *)
Lemma access_mapped_rw (p : Z) (o : Op) (s : VM) :
  p < L1_ENTRIES * L2_ENTRIES -> mapped_rw p s -> access_in_page p o ->
  fst (exec o s) = 0
  /\ page_faults (stats (step o s)) = page_faults (stats s)
  /\ page_table (step o s) = page_table s.
Proof.
  intros Hp (e & Hpte & Hpp & Hv & Hr & Hw) Hacc. unfold step.
  destruct o as [| | |m a|m a val| |]; cbn [access_in_page] in Hacc;
    try contradiction; subst p; cbn [exec];
    assert (Hlt : a < RAM_SIZE) by (apply vpage_lt_iff; exact Hp).
  - pose proof (translate_hit a false s e Hlt Hpte Hpp Hv Hr) as Hhit.
    rewrite (read_vmem_hit m a _ None s Hhit). repeat split.
  - pose proof (translate_hit a true s e Hlt Hpte Hpp Hv Hw) as Hhit.
    rewrite (write_vmem_hit m a val _ s Hhit). repeat split.
Qed.

Lemma run_mapped_rw (p : Z) (ops : list Op) (s : VM) :
  p < L1_ENTRIES * L2_ENTRIES -> mapped_rw p s ->
  Forall (access_in_page p) ops ->
  page_faults (stats (run ops s)) = page_faults (stats s)
  /\ mapped_rw p (run ops s).
Proof.
  intros Hp Hrw Hall. revert s Hrw.
  induction Hall as [|o ops Ho _ IH]; intros s Hrw; [split; [reflexivity|exact Hrw]|].
  destruct (access_mapped_rw p o s Hp Hrw Ho) as (_ & Hpf & Hpt).
  change (run (o :: ops) s) with (run ops (step o s)).
  destruct (IH (step o s)) as [Hpf' Hrw'].
  - destruct Hrw as (e & Hpte & Hrest). exists e.
    rewrite (pte_same_tables p s (step o s) Hpt). split; assumption.
  - split; [rewrite Hpf'; exact Hpf|exact Hrw'].
Qed.

End DemandPaging.

(** C3 (as amended).  Let [p] be a legal virtual page that is not mapped,
    with at least one frame free, and with the second-level table of [p]
    either in place or allocatable.  Then [write_vmem] to any address of
    [p] succeeds and advances [page_faults] by exactly one (modulo 2^32,
    the counter being a [uint32_t]); and after it, however many
    [read_vmem] and [write_vmem] calls follow at addresses of [p], each
    returns 0 and [page_faults] stays where it is. *)
Theorem demand_paging_one_fault (m : bool) (a val : Z) (s : VM) :
  vm_ok s -> 0 <= a < RAM_SIZE -> unmapped (vpage a) s ->
  (exists i, frame_free i s) ->
  pte (vpage a) s <> None \/ m = true ->
  let s' := snd (write_vmem m a val s) in
  fst (write_vmem m a val s) = 0
  /\ page_faults (stats s') = wrap32 (page_faults (stats s) + 1)
  /\ forall ops, Forall (access_in_page (vpage a)) ops ->
       page_faults (stats (run ops s')) = page_faults (stats s')
       /\ forall o, access_in_page (vpage a) o ->
            fst (exec o (run ops s')) = 0
            /\ page_faults (stats (step o (run ops s')))
               = page_faults (stats s').
Proof.
  intros Hok Ha Hun [i Hfree] Hm s'.
  pose proof (vpage_range a Ha) as Hp.
  pose proof (translate_miss a true s (proj2 Ha) Hun) as Hmiss.
  assert (Hw : write_vmem m a val s = write_vmem m a val s) by reflexivity.
  rewrite write_vmem_fault in Hw at 2 by (rewrite Hmiss; reflexivity).
  rewrite wrap16_vpage in Hw by exact Ha.
  assert (Hok1 : vm_ok (incr_translation_failures s))
    by (revert Hok; apply vm_ok_same_tables; reflexivity).
  destruct (page_fault_handler_maps m (vpage a) i
              (incr_translation_failures s) Hok1 Hfree (proj2 Hp) Hm)
    as (j & s2 & Hpfh & [Hjr _] & _ & Hpte & Hst).
  rewrite Hpfh in Hw. cbn [Z.eqb negb] in Hw.
  assert (Hhit : forall w, translate_outcome a w s2
                           = Translated (j * PAGE_SIZE + Z.land a 0xfff)).
  { intros w. apply (translate_hit a w s2 _ (proj2 Ha) Hpte Hjr eq_refl).
    destruct w; reflexivity. }
  rewrite (Hhit true) in Hw. subst s'. rewrite Hw. cbn [fst snd].
  set (s3 := incr_writes _).
  assert (Hrw : mapped_rw (vpage a) s3).
  { exists (mkL2Entry j 7). repeat split; try apply Hjr. exact Hpte. }
  split; [reflexivity|]. split.
  - change (page_faults (stats s3)) with (page_faults (stats s2)).
    rewrite Hst. reflexivity.
  - intros ops Hops.
    destruct (run_mapped_rw _ ops s3 (proj2 Hp) Hrw Hops) as [Hpf Hrw'].
    split; [exact Hpf|]. intros o Ho.
    destruct (access_mapped_rw _ o _ (proj2 Hp) Hrw' Ho) as (Hret & Hpf' & _).
    split; [exact Hret|]. rewrite Hpf'. exact Hpf.
Qed.

Lemma demand_paging_one_fault_witness :
  fst (write_vmem true 0x005000 0xBB boot) = 0
  /\ page_faults (stats (snd (write_vmem true 0x005000 0xBB boot)))
     = wrap32 (page_faults (stats boot) + 1)
  /\ page_faults
       (stats (run [OpRead false 0x005000; OpWrite false 0x005FFF 1]
                 (snd (write_vmem true 0x005000 0xBB boot))))
     = page_faults (stats (snd (write_vmem true 0x005000 0xBB boot))).
Proof.
  assert (Hok : vm_ok boot).
  { repeat split; try reflexivity. apply Forall_replicate. exact I. }
  assert (Ha : 0 <= 0x005000 < RAM_SIZE) by (vm_compute; split; [discriminate|reflexivity]).
  assert (Hfree : exists i, frame_free i boot).
  { exists 0. split; [vm_compute; split; [discriminate|reflexivity]|reflexivity]. }
  destruct (demand_paging_one_fault true 0x005000 0xBB boot Hok Ha I Hfree
              (or_intror eq_refl)) as (Hret & Hpf & Hafter).
  split; [exact Hret|]. split; [exact Hpf|].
  apply Hafter. repeat constructor.
Defined.

(** C3, as first stated, fails: a free frame does not suffice for the
    faulting write to succeed.  When the second-level table of the page has
    to be allocated and [malloc] returns NULL, the write fails (and the
    frame the handler took stays marked used). *)
Lemma faulting_write_may_fail_with_free_frames :
  vm_ok boot /\ unmapped (vpage 0x005000) boot /\ frame_free 0 boot
  /\ fst (write_vmem false 0x005000 0xBB boot) = -1
  /\ phys_pages_used (snd (write_vmem false 0x005000 0xBB boot)) !!! 0%nat
     = true.
Proof.
  split; [apply boot_ok|]. split; [exact I|]. split; [|split; reflexivity].
  split; [vm_compute; split; [discriminate|reflexivity]|reflexivity].
Qed.

(** ** Safety of the translator *)

(** C8.  In every state reachable from the initial one by the public
    operations, [translate] never takes its defensive branch: whenever it
    gets as far as computing the physical address, [phys_page * PAGE_SIZE +
    offset] lies in [0, RAM_SIZE), so the outcome is never
    InternalInconsistency and the address handed to the access routines is
    inside the store. *)
Theorem internal_inconsistency_unreachable (s : VM) (a : Z) (w : bool) :
  reachable s ->
  (forall pa, translate_outcome a w s <> InternalInconsistency pa)
  /\ (forall e, pte (vpage a) s = Some e -> entry_mapped e = true ->
        0 <= phys_page e * PAGE_SIZE + Z.land a 0xfff < RAM_SIZE)
  /\ (forall pa, translate_outcome a w s = Translated pa ->
        0 <= pa < RAM_SIZE).
Proof.
  intros Hreach. pose proof (reachable_ok s Hreach) as Hok.
  assert (Hpa : forall e, pte (vpage a) s = Some e -> entry_mapped e = true ->
            0 <= phys_page e * PAGE_SIZE + Z.land a 0xfff < RAM_SIZE
            /\ wrap32 (phys_page e * PAGE_SIZE + Z.land a 0xfff)
               = phys_page e * PAGE_SIZE + Z.land a 0xfff).
  { intros e Hpte Hmap.
    pose proof (pte_entry_ok _ _ _ Hok Hpte) as Hlt.
    unfold entry_mapped in Hmap. apply andb_true_iff in Hmap as [Hpos _].
    apply Z.leb_le in Hpos.
    destruct (paddr_in_frame (phys_page e) a (conj Hpos Hlt)) as [_ Hr].
    cbv zeta in Hr.
    assert (Hw : wrap32 (phys_page e * PAGE_SIZE + Z.land a 0xfff)
                 = phys_page e * PAGE_SIZE + Z.land a 0xfff).
    { apply wrap32_small. pose proof (land_0xfff_range a).
      change NUM_PHYS_PAGES with 256 in Hlt. change PAGE_SIZE with 4096. lia. }
    rewrite Hw in Hr. split; assumption. }
  split; [|split].
  - intros pa. rewrite translate_outcome_pte.
    destruct (RAM_SIZE <=? a); [discriminate|].
    destruct (pte (vpage a) s) as [e|] eqn:Hpte; [|discriminate].
    destruct (entry_mapped e) eqn:Hmap; cbn [negb]; [|discriminate].
    destruct (negb (has_flag e _)); [discriminate|]. cbv zeta.
    destruct (Hpa e eq_refl Hmap) as [Hr Hw]. rewrite Hw.
    destruct (Z.leb_spec RAM_SIZE (phys_page e * PAGE_SIZE + Z.land a 0xfff));
      [lia|discriminate].
  - intros e Hpte Hmap. apply (Hpa e Hpte Hmap).
  - intros pa. unfold translate_outcome.
    repeat (case_match; try discriminate).
    intros [= <-]. split; [apply Z.mod_pos_bound; lia|].
    match goal with H : (RAM_SIZE <=? wrap32 _) = false |- _ =>
      apply Z.leb_gt in H; exact H end.
Qed.

Lemma internal_inconsistency_unreachable_witness :
  reachable (step (OpWrite true 0x0100ab 0xde) (step (OpMap true 0 42 7) boot))
  /\ translate_outcome 0x000510 true
       (step (OpWrite true 0x0100ab 0xde) (step (OpMap true 0 42 7) boot))
     <> InternalInconsistency 0.
Proof.
  assert (Hreach : reachable (step (OpWrite true 0x0100ab 0xde)
                                (step (OpMap true 0 42 7) boot)))
    by (repeat constructor).
  split; [exact Hreach|].
  apply (internal_inconsistency_unreachable _ 0x000510 true Hreach).
Defined.

(** ** Frame conditions and counters *)

(** C10.  [translate] changes nothing but, possibly, the counter
    [translation_failures]: the store, the page table, the frame bitmap and
    the other three counters are as before.  It returns 0 exactly when it
    leaves the whole state alone, and then the out-parameter holds the
    physical address; on every failure the out-parameter keeps the value it
    had and [translation_failures] has been incremented once. *)
Theorem translate_frame (a : Z) (out : option Z) (w : bool) (s : VM) :
  let r := fst (fst (translate a out w s)) in
  let out' := snd (fst (translate a out w s)) in
  let s' := snd (translate a out w s) in
  RAM s' = RAM s /\ page_table s' = page_table s
  /\ phys_pages_used s' = phys_pages_used s
  /\ page_faults (stats s') = page_faults (stats s)
  /\ reads (stats s') = reads (stats s)
  /\ writes (stats s') = writes (stats s)
  /\ (r = 0 -> s' = s /\ exists pa, out' = Some pa)
  /\ (r <> 0 -> out' = out /\ s' = incr_translation_failures s).
Proof.
  cbv zeta. rewrite translate_classified.
  destruct (translate_outcome a w s); cbn [fst snd outcome_code];
    (do 6 (split; [reflexivity|])); split.
  all: try (intros H; discriminate H).
  all: try (intros _; split; reflexivity).
  - intros _. split; [reflexivity|]. eexists. reflexivity.
  - intros H. exfalso. apply H. reflexivity.
Qed.

Section Counters.

Lemma map_page_stats (m : bool) (v f fl : Z) (s : VM) :
  stats (snd (map_page m v f fl s)) = stats s.
Proof. unfold map_page. repeat case_match; reflexivity. Qed.

Lemma unmap_page_stats (v : Z) (s : VM) :
  stats (snd (unmap_page v s)) = stats s.
Proof.
  unfold unmap_page, free_phys_page. repeat case_match; reflexivity.
Qed.

Ltac advance := unfold stats_advance; cbn; repeat split; auto.

Lemma stats_advance_refl (st : VMStats) : stats_advance st st.
Proof. advance. Qed.

Lemma translate_stats_advance (a : Z) (out : option Z) (w : bool) (s : VM) :
  stats_advance (stats s) (stats (snd (translate a out w s))).
Proof.
  destruct (translate_state a out w s) as [-> | ->]; advance.
Qed.

Lemma write_vmem_stats_advance (m : bool) (a val : Z) (s : VM) :
  stats_advance (stats s) (stats (snd (write_vmem m a val s))).
Proof.
  destruct (outcome_code_cases (translate_outcome a true s))
    as [[pa H] | [H | H]].
  - rewrite (write_vmem_hit _ _ _ _ _ H). advance.
  - rewrite (write_vmem_denied _ _ _ _ H). advance.
  - rewrite (write_vmem_fault _ _ _ _ H).
    pose proof (page_fault_handler_stats m (wrap16 (vpage a))
                  (incr_translation_failures s)) as Hst.
    destruct (page_fault_handler _ _ _) as [r s2]. cbn [snd] in Hst.
    destruct (negb (r =? 0)); [|destruct (translate_outcome a true s2)];
      unfold stats_advance; cbn; rewrite Hst; advance.
Qed.

Lemma read_vmem_stats_advance (m : bool) (a : Z) (out : option Z) (s : VM) :
  stats_advance (stats s) (stats (snd (read_vmem m a out s))).
Proof.
  destruct (outcome_code_cases (translate_outcome a false s))
    as [[pa H] | [H | H]].
  - rewrite (read_vmem_hit _ _ _ _ _ H). advance.
  - rewrite (read_vmem_denied _ _ _ _ H). advance.
  - rewrite (read_vmem_fault _ _ _ _ H).
    pose proof (page_fault_handler_stats m (wrap16 (vpage a))
                  (incr_translation_failures s)) as Hst.
    destruct (page_fault_handler _ _ _) as [r s2]. cbn [snd] in Hst.
    destruct (negb (r =? 0)); [|destruct (translate_outcome a false s2)];
      unfold stats_advance; cbn; rewrite Hst; advance.
Qed.

Lemma step_stats_advance (o : Op) (s : VM) :
  o <> OpInit -> stats_advance (stats s) (stats (step o s)).
Proof.
  intros Ho. unfold step. destruct o; cbn [exec]; try congruence.
  - rewrite map_page_stats. apply stats_advance_refl.
  - rewrite unmap_page_stats. apply stats_advance_refl.
  - pose proof (read_vmem_stats_advance malloc_ok vaddr None s) as H.
    destruct (read_vmem malloc_ok vaddr None s) as [[r o] s']. exact H.
  - apply write_vmem_stats_advance.
  - pose proof (translate_stats_advance vaddr None is_write s) as H.
    destruct (translate vaddr None is_write s) as [[r o] s']. exact H.
  - apply stats_advance_refl.
Qed.

Lemma wrap32_incr_le (x : Z) : x + 1 < 2 ^ 32 -> x <= wrap32 (x + 1).
Proof.
  intros H. unfold wrap32.
  destruct (Z.lt_ge_cases x 0) as [Hneg|Hpos].
  - pose proof (Z.mod_pos_bound (x + 1) (2 ^ 32) ltac:(lia)). lia.
  - rewrite Z.mod_small by lia. lia.
Qed.

Lemma wrap32_incr2_le (x : Z) :
  x + 2 < 2 ^ 32 -> x <= wrap32 (wrap32 (x + 1) + 1).
Proof.
  intros H. unfold wrap32.
  destruct (Z.lt_ge_cases x 0) as [Hneg|Hpos].
  - pose proof (Z.mod_pos_bound ((x + 1) mod 2 ^ 32 + 1) (2 ^ 32) ltac:(lia)).
    lia.
  - rewrite (Z.mod_small (x + 1)) by lia. rewrite Z.mod_small by lia. lia.
Qed.

End Counters.

(** C9 (as amended).  The four counters are 32-bit unsigned and each [++]
    wraps modulo 2^32.  Across any one call of [map_page], [unmap_page],
    [read_vmem], [write_vmem], [translate] or [free_pages], each counter
    moves only by increments: [page_faults], [reads] and [writes] by at most
    one, [translation_failures] by at most two.  Hence, as long as no
    counter is about to wrap, the value of each counter after the call is
    greater than or equal to its value before. *)
Theorem counters_non_decreasing (o : Op) (s : VM) :
  o <> OpInit ->
  stats_advance (stats s) (stats (step o s))
  /\ (no_wrap (stats s) -> stats_le (stats s) (stats (step o s))).
Proof.
  intros Ho. pose proof (step_stats_advance o s Ho) as Hadv.
  split; [exact Hadv|].
  intros (Hpf & Hr & Hw & Htf).
  destruct Hadv as (Apf & Ar & Aw & Atf).
  pose proof (wrap32_incr_le _ Hpf). pose proof (wrap32_incr_le _ Hr).
  pose proof (wrap32_incr_le _ Hw).
  pose proof (wrap32_incr_le (translation_failures (stats s)) ltac:(lia)).
  pose proof (wrap32_incr2_le _ Htf).
  unfold stats_le. repeat split.
  - destruct Apf as [-> | ->]; lia.
  - destruct Ar as [-> | ->]; lia.
  - destruct Aw as [-> | ->]; lia.
  - destruct Atf as [-> | [-> | ->]]; lia.
Qed.

Lemma counters_non_decreasing_witness :
  stats_le (stats boot) (stats (step (OpRead true 0x200000) boot)).
Proof.
  refine (proj2 (counters_non_decreasing (OpRead true 0x200000) boot _) _).
  - discriminate.
  - vm_compute. repeat split.
Defined.

(** C9, as first stated, fails: a counter at its largest value wraps to 0
    on the next increment.  Here [translation_failures] is 2^32 - 1 and a
    failing [translate] brings it to 0. *)
Lemma counter_wraps_at_uint32_max :
  translation_failures
    (stats (set_stats (mkVMStats 0 0 0 4294967295) boot)) = 4294967295
  /\ translation_failures
       (stats (step (OpTranslate RAM_SIZE false)
                 (set_stats (mkVMStats 0 0 0 4294967295) boot))) = 0.
Proof. split; reflexivity. Qed.

(** * Further properties of the code *)

(** ** Faulting a page in *)

Section FaultIn.

(** An address is its page number and its offset. *)
Lemma vaddr_decompose (a : Z) : a = vpage a * PAGE_SIZE + Z.land a 0xfff.
Proof.
  unfold vpage, PAGE_SIZE. rewrite Z.shiftr_div_pow2 by lia.
  change 0xfff with (Z.ones 12). rewrite Z.land_ones by lia.
  change (2 ^ 12) with 4096.
  pose proof (Z.div_mod a 4096 ltac:(lia)). lia.
Qed.

Lemma same_page_same_offset (a b : Z) :
  vpage b = vpage a -> Z.land b 0xfff = Z.land a 0xfff -> b = a.
Proof.
  intros Hp Ho. rewrite (vaddr_decompose a), (vaddr_decompose b), Hp, Ho.
  reflexivity.
Qed.

(** The state the fault handler leaves when it succeeds. *)
Lemma page_fault_handler_result (m : bool) (v i : Z) (s : VM) :
  vm_ok s -> frame_free i s -> v < L1_ENTRIES * L2_ENTRIES ->
  pte v s <> None \/ m = true ->
  exists j s', page_fault_handler m v s = (0, s')
    /\ frame_free j s /\ (forall k, frame_free k s -> j <= k)
    /\ pte v s' = Some (mkL2Entry j 7)
    /\ RAM s' = memset_zero (j * PAGE_SIZE) PAGE_SIZE (RAM s)
    /\ phys_pages_used s' = <[Z.to_nat j := true]> (phys_pages_used s)
    /\ stats s' = stats (incr_page_faults s)
    /\ vm_ok s'.
Proof.
  intros Hok Hfree Hv Hm.
  pose proof (page_fault_handler_stats m v s) as Hst.
  pose proof (page_fault_handler_ok m v s Hok) as Hok'.
  unfold page_fault_handler in *.
  destruct (allocate_phys_page_free (incr_page_faults s) i Hfree)
    as (j & Heq & Hj & Hleast).
  rewrite Heq in *. destruct Hj as [Hjr Hjf].
  destruct (Z.ltb_spec j 0); [lia|].
  set (s2 := take_frame j (incr_page_faults s)) in *.
  assert (Hok2 : vm_ok s2).
  { revert Hok. apply vm_ok_same_tables; cbn; [reflexivity|].
    apply length_insert. }
  pose proof (map_page_returns_0 m v j (Z.lor PTE_READ PTE_WRITE) s2 Hv
                (proj2 Hjr) Hm) as Hret.
  destruct (map_page m v j (Z.lor PTE_READ PTE_WRITE) s2) as [r s3] eqn:Hmap.
  cbn [fst snd] in *. subst r.
  destruct (map_page_installs _ _ _ _ _ _ Hok2 Hmap)
    as (Hpte & Hused & Hram & _).
  rewrite rw_flags in Hpte.
  exists j, s3.
  split; [reflexivity|]. split; [split; assumption|].
  split; [exact Hleast|]. split; [exact Hpte|].
  split; [rewrite Hram; reflexivity|].
  split; [|split; assumption].
  rewrite Hused. cbn. apply list_insert_insert_eq.
Qed.

(** The fault an access routine services for a legal unmapped page: the
    page ends up mapped read-write onto the lowest free frame, cleared, and
    both directions of access then translate into that frame. *)
Lemma fault_in (m : bool) (a i : Z) (s : VM) :
  vm_ok s -> 0 <= a < RAM_SIZE -> frame_free i s ->
  pte (vpage a) s <> None \/ m = true ->
  exists j s2,
    page_fault_handler m (wrap16 (vpage a)) (incr_translation_failures s)
    = (0, s2)
    /\ frame_free j s /\ (forall k, frame_free k s -> j <= k)
    /\ pte (vpage a) s2 = Some (mkL2Entry j 7)
    /\ RAM s2 = memset_zero (j * PAGE_SIZE) PAGE_SIZE (RAM s)
    /\ phys_pages_used s2 = <[Z.to_nat j := true]> (phys_pages_used s)
    /\ stats s2 = stats (incr_page_faults (incr_translation_failures s))
    /\ vm_ok s2.
Proof.
  intros Hok Ha Hfree Hm. rewrite wrap16_vpage by exact Ha.
  assert (Hok1 : vm_ok (incr_translation_failures s))
    by (revert Hok; apply vm_ok_same_tables; reflexivity).
  exact (page_fault_handler_result m (vpage a) i _ Hok1 Hfree
           (proj2 (vpage_range a Ha)) Hm).
Qed.

(** A page mapped read-write onto frame [j] translates, in both
    directions and at each of its addresses, into that frame. *)
Lemma translate_rw (b : Z) (w : bool) (j : Z) (s : VM) :
  b < RAM_SIZE -> 0 <= j < NUM_PHYS_PAGES ->
  pte (vpage b) s = Some (mkL2Entry j 7) ->
  translate_outcome b w s = Translated (j * PAGE_SIZE + Z.land b 0xfff).
Proof.
  intros Hb Hj Hpte.
  apply (translate_hit b w s _ Hb Hpte Hj eq_refl). destruct w; reflexivity.
Qed.

Lemma memset_zero_in_frame (j b : Z) (ram : Z -> Z) :
  memset_zero (j * PAGE_SIZE) PAGE_SIZE ram (j * PAGE_SIZE + Z.land b 0xfff) = 0.
Proof.
  unfold memset_zero. pose proof (land_0xfff_range b) as Hb.
  change PAGE_SIZE with 4096.
  destruct (Z.leb_spec (j * 4096) (j * 4096 + Z.land b 4095)); [|lia].
  destruct (Z.ltb_spec (j * 4096 + Z.land b 4095) (j * 4096 + 4096));
    [reflexivity|lia].
Qed.

End FaultIn.

(** X2.  A read of a legal unmapped page (a frame being free and
    the second-level table in place or allocatable) succeeds and yields 0,
    whatever the store held; and after a faulting write of [val] at [a],
    a read at any address [b] of the same page yields [val] at [a] itself
    and 0 everywhere else. *)
Theorem faulted_page_reads_zero
    (m m2 : bool) (a b val : Z) (out : option Z) (s : VM) :
  vm_ok s -> 0 <= a < RAM_SIZE -> unmapped (vpage a) s ->
  (exists i, frame_free i s) ->
  pte (vpage a) s <> None \/ m = true ->
  fst (read_vmem m a out s) = (0, Some 0)
  /\ (vpage b = vpage a ->
      fst (read_vmem m2 b out (snd (write_vmem m a val s)))
      = (0, Some (if b =? a then val else 0))).
Proof.
  intros Hok Ha Hun [i Hfree] Hm.
  destruct (fault_in m a i s Hok Ha Hfree Hm)
    as (j & s2 & Hpfh & [Hjr _] & _ & Hpte & Hram & _).
  split.
  - rewrite read_vmem_fault
      by (rewrite (translate_miss a false s (proj2 Ha) Hun); reflexivity).
    rewrite Hpfh. cbn [Z.eqb negb].
    rewrite (translate_rw a false j s2 (proj2 Ha) Hjr Hpte). cbn [fst].
    rewrite Hram, memset_zero_in_frame. reflexivity.
  - intros Hb.
    rewrite write_vmem_fault
      by (rewrite (translate_miss a true s (proj2 Ha) Hun); reflexivity).
    rewrite Hpfh. cbn [Z.eqb negb].
    rewrite (translate_rw a true j s2 (proj2 Ha) Hjr Hpte). cbn [snd].
    assert (Hblt : b < RAM_SIZE).
    { apply vpage_lt_iff. rewrite Hb. apply vpage_range. exact Ha. }
    set (pa := j * PAGE_SIZE + Z.land a 0xfff).
    set (s3 := incr_writes (set_RAM (store pa val (RAM s2)) s2)).
    assert (Hpte3 : pte (vpage b) s3 = Some (mkL2Entry j 7))
      by (rewrite Hb; exact Hpte).
    rewrite (read_vmem_hit m2 b _ out s3 (translate_rw b false j s3 Hblt Hjr Hpte3)).
    cbn [fst]. f_equal. f_equal.
    change (RAM s3) with (store pa val (RAM s2)). unfold store, pa.
    destruct (Z.eqb_spec b a) as [->|Hne].
    + rewrite Z.eqb_refl. reflexivity.
    + destruct (Z.eqb_spec (j * PAGE_SIZE + Z.land b 0xfff)
                  (j * PAGE_SIZE + Z.land a 0xfff)) as [E|_].
      * exfalso. apply Hne. apply same_page_same_offset; [exact Hb|lia].
      * rewrite Hram. apply memset_zero_in_frame.
Qed.

Lemma faulted_page_reads_zero_witness :
  fst (read_vmem true 0x005000 None (set_RAM (fun _ => 0xEE) boot))
  = (0, Some 0)
  /\ fst (read_vmem false 0x005001 None
            (snd (write_vmem true 0x005000 0xBB (set_RAM (fun _ => 0xEE) boot))))
     = (0, Some 0).
Proof.
  assert (Hok : vm_ok (set_RAM (fun _ => 0xEE) boot)).
  { repeat split; try reflexivity. apply Forall_replicate. exact I. }
  assert (Ha : 0 <= 0x005000 < RAM_SIZE)
    by (vm_compute; split; [discriminate|reflexivity]).
  assert (Hfree : exists i, frame_free i (set_RAM (fun _ => 0xEE) boot)).
  { exists 0. split; [vm_compute; split; [discriminate|reflexivity]|reflexivity]. }
  destruct (faulted_page_reads_zero true false 0x005000 0x005001 0xBB None
              (set_RAM (fun _ => 0xEE) boot) Hok Ha I Hfree (or_intror eq_refl))
    as [Hread Hafter].
  split; [exact Hread|]. exact (Hafter eq_refl).
Defined.

(** X3.  Unmapping a page that records a frame and then reading any address
    of the page does not fail: [unmap_page] returns 0, the read faults the
    page in again (the frame just freed guarantees a free frame, and the
    second-level table is in place, so no allocation can fail), returns 0
    and yields 0 rather than the byte stored before; [page_faults] goes up
    by one. *)
Theorem unmap_then_read_faults_afresh
    (m : bool) (a : Z) (out : option Z) (s : VM) (e : L2Entry) :
  vm_ok s -> 0 <= a < RAM_SIZE ->
  pte (vpage a) s = Some e -> 0 <= phys_page e ->
  let s1 := snd (unmap_page (vpage a) s) in
  fst (unmap_page (vpage a) s) = 0
  /\ fst (read_vmem m a out s1) = (0, Some 0)
  /\ page_faults (stats (snd (read_vmem m a out s1)))
     = wrap32 (page_faults (stats s) + 1).
Proof.
  intros Hok Ha Hpte Hpos s1.
  pose proof (vpage_range a Ha) as Hp.
  pose proof (unmap_page_ok (vpage a) s Hok) as Hok1.
  destruct (unmap_page_present (vpage a) s e Hok (proj2 Hp) Hpte)
    as (s' & Heq & Hpte' & Hused & _ & Hstats).
  subst s1. rewrite Heq in *. cbn [fst snd] in *.
  split; [reflexivity|].
  assert (Hfree : frame_free (phys_page e) s').
  { pose proof (pte_entry_ok _ _ _ Hok Hpte) as Hlt.
    split; [lia|]. rewrite Hused.
    destruct (Z.leb_spec 0 (phys_page e)); [|lia].
    apply list_lookup_total_insert_eq.
    destruct Hok as (_ & _ & ->). change NUM_PHYS_PAGES with 256 in *. lia. }
  assert (Hun : unmapped (vpage a) s')
    by (unfold unmapped; rewrite Hpte'; reflexivity).
  assert (Hm : pte (vpage a) s' <> None \/ m = true)
    by (left; rewrite Hpte'; discriminate).
  destruct (fault_in m a _ s' Hok1 Ha Hfree Hm)
    as (j & s2 & Hpfh & [Hjr _] & _ & Hpte2 & Hram & _ & Hst & _).
  rewrite read_vmem_fault
    by (rewrite (translate_miss a false s' (proj2 Ha) Hun); reflexivity).
  rewrite Hpfh. cbn [Z.eqb negb].
  rewrite (translate_rw a false j s2 (proj2 Ha) Hjr Hpte2). cbn [fst snd].
  split.
  - rewrite Hram, memset_zero_in_frame. reflexivity.
  - change (page_faults (stats (incr_reads s2))) with (page_faults (stats s2)).
    rewrite Hst. cbn. rewrite Hstats. reflexivity.
Qed.

Lemma unmap_then_read_faults_afresh_witness :
  fst (read_vmem false 0x006100 None
         (snd (unmap_page 6
                 (snd (write_vmem false 0x006100 0x44
                         (snd (map_page true 6 40 7 boot)))))))
  = (0, Some 0).
Proof.
  refine (proj1 (proj2
    (unmap_then_read_faults_afresh false 0x006100 None
       (snd (write_vmem false 0x006100 0x44 (snd (map_page true 6 40 7 boot))))
       (mkL2Entry 40 7) _ _ _ _))).
  - repeat split; try reflexivity. vm_compute. repeat constructor.
  - vm_compute. split; [discriminate|reflexivity].
  - reflexivity.
  - vm_compute. discriminate.
Defined.

(** X1.  An access beyond the address space whose page number, cut to 16
    bits, is a legal page [v] makes the fault handler map [v] afresh: with
    a frame free (and the second-level table of [v] in place or
    allocatable) [write_vmem] and [read_vmem] return -1, and [v] is left
    mapped read-write onto the lowest free frame, whatever it was mapped to
    before. *)
Theorem out_of_bounds_access_remaps_truncated_page
    (m : bool) (a val v : Z) (out : option Z) (s : VM) :
  vm_ok s -> RAM_SIZE <= a -> wrap16 (vpage a) = v ->
  v < L1_ENTRIES * L2_ENTRIES ->
  (exists i, frame_free i s) ->
  pte v s <> None \/ m = true ->
  exists j, frame_free j s /\ (forall k, frame_free k s -> j <= k)
    /\ fst (write_vmem m a val s) = -1
    /\ pte v (snd (write_vmem m a val s)) = Some (mkL2Entry j 7)
    /\ fst (fst (read_vmem m a out s)) = -1
    /\ pte v (snd (read_vmem m a out s)) = Some (mkL2Entry j 7).
Proof.
  intros Hok Ha Hv Hlt [i Hfree] Hm.
  assert (Hok1 : vm_ok (incr_translation_failures s))
    by (revert Hok; apply vm_ok_same_tables; reflexivity).
  destruct (page_fault_handler_result m v i _ Hok1 Hfree Hlt Hm)
    as (j & s2 & Hpfh & Hj & Hleast & Hpte & _).
  exists j. split; [exact Hj|]. split; [exact Hleast|].
  rewrite write_vmem_fault, read_vmem_fault
    by (rewrite translate_out_of_bounds by exact Ha; reflexivity).
  rewrite Hv, Hpfh. cbn [Z.eqb negb].
  rewrite !translate_out_of_bounds by exact Ha. cbn [fst snd].
  repeat split; exact Hpte.
Qed.

Lemma out_of_bounds_access_remaps_truncated_page_witness :
  pte 0 (snd (map_page true 0 5 PTE_READ boot)) = Some (mkL2Entry 5 5)
  /\ exists j,
       pte 0 (snd (write_vmem true 0x10000000 0x11
                     (snd (map_page true 0 5 PTE_READ boot))))
       = Some (mkL2Entry j 7).
Proof.
  split; [reflexivity|].
  destruct (out_of_bounds_access_remaps_truncated_page true 0x10000000 0x11 0
              None (snd (map_page true 0 5 PTE_READ boot)))
    as (j & _ & _ & _ & Hpte & _).
  - repeat split; try reflexivity. vm_compute. repeat constructor.
  - vm_compute. discriminate.
  - reflexivity.
  - reflexivity.
  - exists 0. split; [vm_compute; split; [discriminate|reflexivity]|reflexivity].
  - left. discriminate.
  - exists j. exact Hpte.
Defined.

(** ** Teardown *)

Section Teardown.

(** The loop of [free_pages] clears every slot it passes over. *)
Lemma free_pages_loop_clears (n i : nat) (ts : list (option L2Table)) :
  (i + n = length ts)%nat ->
  free_pages_loop n i ts = take i ts ++ replicate n None.
Proof.
  revert i ts. induction n as [|n IH]; intros i ts Hlen; cbn [free_pages_loop].
  - cbn. rewrite app_nil_r. symmetry. apply firstn_all2. lia.
  - assert (Hi : (i < length ts)%nat) by lia.
    destruct (lookup_lt_is_Some_2 ts i Hi) as [x Hx].
    rewrite (list_lookup_total_correct ts i x Hx).
    destruct x as [t|].
    + rewrite IH by (rewrite length_insert; lia).
      rewrite (take_S_r (<[i:=None]> ts) i None)
        by (apply list_lookup_insert_eq; exact Hi).
      rewrite take_insert_ge by lia.
      rewrite <- app_assoc. reflexivity.
    + rewrite IH by lia.
      rewrite (take_S_r ts i None Hx).
      rewrite <- app_assoc. reflexivity.
Qed.

End Teardown.

(** X4.  [free_pages] empties the first-level table: afterwards no page has
    an entry and every address below [RAM_SIZE] translates to a miss, in
    either direction.  It releases no frame: the bitmap of used frames, the
    store and the counters are exactly as before. *)
Theorem free_pages_unmaps_all_keeps_frames (s : VM) :
  vm_ok s ->
  tables (page_table (free_pages s)) = replicate (Z.to_nat L1_ENTRIES) None
  /\ (forall v, pte v (free_pages s) = None)
  /\ (forall a w, a < RAM_SIZE ->
        translate_outcome a w (free_pages s) = TranslationMiss)
  /\ phys_pages_used (free_pages s) = phys_pages_used s
  /\ RAM (free_pages s) = RAM s /\ stats (free_pages s) = stats s.
Proof.
  intros (Hlen & _).
  assert (Hts : tables (page_table (free_pages s))
                = replicate (Z.to_nat L1_ENTRIES) None).
  { unfold free_pages. cbn [set_tables page_table tables].
    rewrite free_pages_loop_clears by (rewrite Hlen; reflexivity).
    reflexivity. }
  assert (Hpte : forall v, pte v (free_pages s) = None).
  { intros v. unfold pte. rewrite Hts.
    rewrite lookup_total_replicate_2 by apply index_lt_16. reflexivity. }
  split; [exact Hts|]. split; [exact Hpte|].
  split; [|repeat split].
  intros a w Ha. apply translate_miss; [exact Ha|].
  unfold unmapped. rewrite Hpte. exact I.
Qed.

Lemma free_pages_unmaps_all_keeps_frames_witness :
  translate_outcome 0x006100 false
    (free_pages (snd (map_page true 6 40 7 boot))) = TranslationMiss
  /\ phys_pages_used (free_pages (snd (map_page true 6 40 7 boot))) !!! 40%nat
     = true.
Proof.
  assert (Hok : vm_ok (snd (map_page true 6 40 7 boot))).
  { repeat split; try reflexivity. vm_compute. repeat constructor. }
  destruct (free_pages_unmaps_all_keeps_frames _ Hok)
    as (_ & _ & Hmiss & Hused & _).
  split; [apply Hmiss; reflexivity|]. rewrite Hused. reflexivity.
Defined.

(** ** Allocating and freeing frames *)

(** X5.  Allocating a frame and freeing it again restores the bitmap of
    used frames: the frame is free once more and the next allocation
    returns the same index.  Freeing does not touch the store, so the frame
    keeps the zeroes allocation wrote. *)
Theorem allocate_then_free_restores_bitmap (s : VM) :
  vm_ok s -> (exists i, frame_free i s) ->
  let j := fst (allocate_phys_page s) in
  let s2 := free_phys_page j (snd (allocate_phys_page s)) in
  0 <= j < NUM_PHYS_PAGES
  /\ phys_pages_used s2 = phys_pages_used s
  /\ fst (allocate_phys_page s2) = j
  /\ (forall a, j * PAGE_SIZE <= a < j * PAGE_SIZE + PAGE_SIZE -> RAM s2 a = 0)
  /\ page_table s2 = page_table s /\ stats s2 = stats s.
Proof.
  intros Hok [i Hfree] j s2.
  destruct (allocate_phys_page_free s i Hfree) as (j' & Heq & Hj & Hleast).
  subst j s2. rewrite Heq. cbn [fst snd].
  destruct Hj as [Hjr Hjf].
  assert (Hlen : (Z.to_nat j' < length (phys_pages_used s))%nat).
  { destruct Hok as (_ & _ & ->). change NUM_PHYS_PAGES with 256 in *. lia. }
  assert (Hfreed : free_phys_page j' (take_frame j' s)
                   = set_RAM (memset_zero (j' * PAGE_SIZE) PAGE_SIZE (RAM s)) s).
  { unfold free_phys_page.
    destruct (Z.leb_spec 0 j'); [|lia].
    destruct (Z.ltb_spec j' NUM_PHYS_PAGES); [|lia].
    cbn. rewrite list_insert_insert_eq.
    rewrite list_insert_id; [destruct s; reflexivity|].
    rewrite <- Hjf. apply list_lookup_lookup_total_lt. exact Hlen. }
  rewrite Hfreed.
  split; [exact Hjr|]. split; [reflexivity|]. split.
  - destruct (allocate_phys_page_free
                (set_RAM (memset_zero (j' * PAGE_SIZE) PAGE_SIZE (RAM s)) s) j'
                (conj Hjr Hjf)) as (k & -> & Hk & Hkleast).
    cbn [fst]. pose proof (Hkleast j' (conj Hjr Hjf)).
    pose proof (Hleast k Hk). lia.
  - split; [|split; reflexivity].
    intros a Ha. cbn. unfold memset_zero.
    destruct (Z.leb_spec (j' * PAGE_SIZE) a); [|lia].
    destruct (Z.ltb_spec a (j' * PAGE_SIZE + PAGE_SIZE)); [reflexivity|lia].
Qed.

Lemma allocate_then_free_restores_bitmap_witness :
  phys_pages_used
    (free_phys_page (fst (allocate_phys_page (snd (map_page true 0 0 7 boot))))
       (snd (allocate_phys_page (snd (map_page true 0 0 7 boot)))))
  = phys_pages_used (snd (map_page true 0 0 7 boot)).
Proof.
  refine (proj1 (proj2
    (allocate_then_free_restores_bitmap (snd (map_page true 0 0 7 boot)) _ _))).
  - repeat split; try reflexivity. vm_compute. repeat constructor.
  - exists 1. split; [vm_compute; split; [discriminate|reflexivity]|reflexivity].
Defined.

(** X6.  [free_phys_page] ignores an index outside [0, NUM_PHYS_PAGES).
    After freeing frame [j] inside that range an allocation cannot fail: it
    returns a frame no higher than [j], marked used and cleared. *)
Theorem free_then_allocate_succeeds (j : Z) (s : VM) :
  vm_ok s ->
  (j < 0 \/ NUM_PHYS_PAGES <= j -> free_phys_page j s = s)
  /\ (0 <= j < NUM_PHYS_PAGES ->
      let r := allocate_phys_page (free_phys_page j s) in
      0 <= fst r <= j
      /\ phys_pages_used (snd r) !!! Z.to_nat (fst r) = true
      /\ forall a, fst r * PAGE_SIZE <= a < fst r * PAGE_SIZE + PAGE_SIZE ->
           RAM (snd r) a = 0).
Proof.
  intros Hok. split.
  - intros Hj. unfold free_phys_page.
    destruct (Z.leb_spec 0 j); destruct (Z.ltb_spec j NUM_PHYS_PAGES);
      try reflexivity; lia.
  - intros Hj r.
    pose proof (free_phys_page_ok j s Hok) as Hok1.
    assert (Hfree : frame_free j (free_phys_page j s)).
    { split; [exact Hj|]. unfold free_phys_page.
      destruct (Z.leb_spec 0 j); [|lia].
      destruct (Z.ltb_spec j NUM_PHYS_PAGES); [|lia]. cbn.
      apply list_lookup_total_insert_eq.
      destruct Hok as (_ & _ & ->). change NUM_PHYS_PAGES with 256 in *. lia. }
    destruct (allocate_phys_page_free _ j Hfree) as (k & Heq & [Hkr _] & Hleast).
    subst r. rewrite Heq. cbn [fst snd].
    split; [pose proof (Hleast j Hfree); lia|]. split.
    + apply take_frame_marks. destruct Hok1 as (_ & _ & ->).
      change NUM_PHYS_PAGES with 256 in *. lia.
    + intros a Ha. apply take_frame_RAM_zero. exact Ha.
Qed.

Lemma free_then_allocate_succeeds_witness :
  0 <= fst (allocate_phys_page
              (free_phys_page 3 (set_used (replicate 256 true) boot))) <= 3.
Proof.
  assert (Hok : vm_ok (set_used (replicate 256 true) boot)).
  { repeat split; try reflexivity. apply Forall_replicate. exact I. }
  assert (Hj : 0 <= 3 < NUM_PHYS_PAGES)
    by (vm_compute; split; [discriminate|reflexivity]).
  exact (proj1 (proj2 (free_then_allocate_succeeds 3 _ Hok) Hj)).
Defined.

(** ** Statistics *)

Section Counting.

Lemma count_used_bounds (l : list bool) :
  0 <= count_used l <= Z.of_nat (length l).
Proof.
  induction l as [|b l IH]; cbn [count_used length]; [lia|].
  destruct b; lia.
Qed.

Lemma count_used_full (l : list bool) :
  count_used l = Z.of_nat (length l) <-> Forall (fun b => b = true) l.
Proof.
  induction l as [|b l IH]; cbn [count_used length].
  - split; [constructor|reflexivity].
  - pose proof (count_used_bounds l) as Hb. split.
    + intros H. destruct b; [|lia].
      constructor; [reflexivity|]. apply IH. lia.
    + intros H. inversion H as [|? ? Hb' Hl]; subst.
      apply IH in Hl. lia.
Qed.

Lemma count_used_insert (l : list bool) (i : nat) (b : bool) :
  (i < length l)%nat ->
  count_used (<[i := b]> l)
  = count_used l - (if (l !!! i : bool) then 1 else 0) + (if b then 1 else 0).
Proof.
  revert i. induction l as [|x l IH]; intros i Hi; cbn [length] in Hi; [lia|].
  destruct i as [|i].
  - cbn. destruct x, b; lia.
  - cbn [count_used]. change (<[S i := b]> (x :: l)) with (x :: <[i := b]> l).
    cbn [count_used]. rewrite IH by lia.
    change ((x :: l) !!! S i) with (l !!! i). lia.
Qed.

(** The loop of [print_stats] counts the used cells it passes over. *)
Lemma used_pages_loop_count (n : nat) (i : Z) (l : list bool) (acc : Z) :
  0 <= i -> (Z.to_nat i + n <= length l)%nat ->
  used_pages_loop n i l acc
  = acc + count_used (take n (drop (Z.to_nat i) l)).
Proof.
  revert i acc. induction n as [|n IH]; intros i acc Hi Hlen;
    cbn [used_pages_loop].
  - rewrite take_0. cbn [count_used]. lia.
  - assert (Hlt : (Z.to_nat i < length l)%nat) by lia.
    destruct (lookup_lt_is_Some_2 l _ Hlt) as [x Hx].
    rewrite (list_lookup_total_correct l _ x Hx).
    rewrite (drop_S l x _ Hx). cbn [take count_used].
    rewrite IH by lia.
    replace (Z.to_nat (i + 1)) with (S (Z.to_nat i)) by lia.
    destruct x; lia.
Qed.

Lemma print_stats_counts (s : VM) :
  vm_ok s -> rep_used_pages (print_stats s) = count_used (phys_pages_used s).
Proof.
  intros (_ & _ & Hlen). cbn [print_stats rep_used_pages].
  rewrite used_pages_loop_count
    by (rewrite ?Hlen; change NUM_PHYS_PAGES with 256; lia).
  change (Z.to_nat 0) with 0%nat. rewrite drop_0, <- Hlen, firstn_all. lia.
Qed.

Lemma all_used_iff (s : VM) :
  vm_ok s ->
  (forall i, 0 <= i < NUM_PHYS_PAGES -> phys_pages_used s !!! Z.to_nat i = true)
  <-> count_used (phys_pages_used s) = NUM_PHYS_PAGES.
Proof.
  intros (_ & _ & Hlen).
  assert (HN : Z.of_nat (length (phys_pages_used s)) = NUM_PHYS_PAGES)
    by (rewrite Hlen; reflexivity).
  split.
  - intros H. rewrite <- HN. apply count_used_full.
    apply (Forall_lookup_total_2 (fun b : bool => b = true)). intros i Hi.
    rewrite <- (Nat2Z.id i). apply H. lia.
  - intros H i Hi. rewrite <- HN in H. apply count_used_full in H.
    apply (Forall_lookup_total_1 (fun b : bool => b = true) _ (Z.to_nat i) H).
    lia.
Qed.

End Counting.

(** X7.  The "PHY used" figure of [print_stats] is the number of frames
    marked used, between 0 and [NUM_PHYS_PAGES].  [allocate_phys_page]
    fails exactly when that figure is [NUM_PHYS_PAGES], and each allocation
    that succeeds raises it by one. *)
Theorem print_stats_used_pages (s : VM) :
  vm_ok s ->
  let n := rep_used_pages (print_stats s) in
  n = count_used (phys_pages_used s)
  /\ 0 <= n <= NUM_PHYS_PAGES
  /\ (fst (allocate_phys_page s) = -1 <-> n = NUM_PHYS_PAGES)
  /\ (fst (allocate_phys_page s) <> -1 ->
      rep_used_pages (print_stats (snd (allocate_phys_page s))) = n + 1).
Proof.
  intros Hok n. subst n. rewrite (print_stats_counts s Hok).
  pose proof (count_used_bounds (phys_pages_used s)) as Hb.
  pose proof Hok as (_ & _ & Hlen).
  assert (HN : Z.of_nat (length (phys_pages_used s)) = NUM_PHYS_PAGES)
    by (rewrite Hlen; reflexivity).
  split; [reflexivity|]. split; [lia|].
  unfold allocate_phys_page.
  destruct (allocate_scan_spec (Z.to_nat NUM_PHYS_PAGES) 0 s ltac:(lia))
    as [(j & Hj & Hf & _ & ->)|[Hall ->]]; cbn [fst snd].
  - assert (Hjr : 0 <= j < NUM_PHYS_PAGES)
      by (change NUM_PHYS_PAGES with 256 in *; lia).
    split.
    + split; [lia|]. intros Hfull.
      rewrite (proj2 (all_used_iff s Hok) Hfull j Hjr) in Hf. discriminate.
    + intros _.
      assert (Hok' : vm_ok (take_frame j s)).
      { revert Hok. apply vm_ok_same_tables; cbn; [reflexivity|].
        apply length_insert. }
      rewrite (print_stats_counts _ Hok'). cbn [take_frame set_RAM set_used phys_pages_used].
      rewrite count_used_insert
        by (rewrite Hlen; change NUM_PHYS_PAGES with 256 in *; lia).
      rewrite Hf. lia.
  - split; [|intros H; exfalso; apply H; reflexivity].
    split; [intros _|reflexivity].
    apply (proj1 (all_used_iff s Hok)). intros i Hi. apply Hall.
    change NUM_PHYS_PAGES with 256 in *. lia.
Qed.

Lemma print_stats_used_pages_witness :
  rep_used_pages
    (print_stats (snd (allocate_phys_page (snd (map_page true 0 42 7 boot)))))
  = rep_used_pages (print_stats (snd (map_page true 0 42 7 boot))) + 1.
Proof.
  refine (proj2 (proj2 (proj2
    (print_stats_used_pages (snd (map_page true 0 42 7 boot)) _))) _).
  - repeat split; try reflexivity. vm_compute. repeat constructor.
  - vm_compute. discriminate.
Defined.

(** ** Independence of pages *)

Section OtherPages.

(** A legal page number is determined by its two table indices. *)
Lemma page_indices_inj (p q : Z) :
  0 <= p < L1_ENTRIES * L2_ENTRIES -> 0 <= q < L1_ENTRIES * L2_ENTRIES ->
  Z.land (Z.shiftr p 4) 0xf = Z.land (Z.shiftr q 4) 0xf ->
  Z.land p 0xf = Z.land q 0xf -> p = q.
Proof.
  change (L1_ENTRIES * L2_ENTRIES) with 256. intros Hp Hq.
  change 0xf with (Z.ones 4). rewrite !Z.land_ones, !Z.shiftr_div_pow2 by lia.
  change (2 ^ 4) with 16. intros H1 H2.
  pose proof (Z.div_mod p 16 ltac:(lia)).
  pose proof (Z.div_mod q 16 ltac:(lia)).
  assert (0 <= p / 16 < 16)
    by (split; [apply Z.div_pos; lia|apply Z.div_lt_upper_bound; lia]).
  assert (0 <= q / 16 < 16)
    by (split; [apply Z.div_pos; lia|apply Z.div_lt_upper_bound; lia]).
  rewrite !Z.mod_small in H1 by lia. lia.
Qed.

(** Writing one entry of the table of page [p] leaves the entry of every
    other page as it was; if the table is a fresh one, the other pages of
    its slot get cleared entries. *)
Lemma pte_write_other (p q : Z) (e : L2Entry) (t : L2Table) (s : VM) :
  vm_ok s -> table_ok t ->
  0 <= p < L1_ENTRIES * L2_ENTRIES -> 0 <= q < L1_ENTRIES * L2_ENTRIES ->
  p <> q ->
  pte q (set_tables
           (<[Z.to_nat (Z.land (Z.shiftr p 4) 0xf) :=
                Some (mkL2Table (<[Z.to_nat (Z.land p 0xf) := e]> (entries t)))]>
              (tables (page_table s))) s)
  = if decide (Z.land (Z.shiftr q 4) 0xf = Z.land (Z.shiftr p 4) 0xf)
    then Some (entries t !!! Z.to_nat (Z.land q 0xf))
    else pte q s.
Proof.
  intros (Hlen & _) [Htl _] Hp Hq Hne. unfold pte.
  cbn [set_tables page_table tables].
  pose proof (land_0xf_range (Z.shiftr p 4)).
  pose proof (land_0xf_range (Z.shiftr q 4)).
  pose proof (land_0xf_range p). pose proof (land_0xf_range q).
  destruct (decide (Z.land (Z.shiftr q 4) 0xf = Z.land (Z.shiftr p 4) 0xf))
    as [E|E].
  - rewrite E. rewrite list_lookup_total_insert_eq by (rewrite Hlen; apply index_lt_16).
    cbn [entries]. f_equal. apply list_lookup_total_insert_ne.
    intros E2. apply Hne. apply page_indices_inj; try assumption; [lia|lia].
  - rewrite list_lookup_total_insert_ne by lia. reflexivity.
Qed.

(** Two entries that a translation cannot tell apart. *)
Lemma translate_outcome_by_pte (b : Z) (w : bool) (s s' : VM) :
  pte (vpage b) s' = pte (vpage b) s
  \/ (pte (vpage b) s = None /\ pte (vpage b) s' = Some (mkL2Entry (-1) 0)) ->
  translate_outcome b w s' = translate_outcome b w s.
Proof.
  intros H. rewrite !translate_outcome_pte.
  destruct H as [-> | [-> ->]]; reflexivity.
Qed.

Lemma map_page_other (m : bool) (p q f fl : Z) (s : VM) :
  vm_ok s -> 0 <= p -> 0 <= q < L1_ENTRIES * L2_ENTRIES -> p <> q ->
  pte q (snd (map_page m p f fl s)) = pte q s
  \/ (pte q s = None /\ pte q (snd (map_page m p f fl s)) = Some (mkL2Entry (-1) 0)).
Proof.
  intros Hok Hp Hq Hne. unfold map_page.
  destruct (Z.leb_spec (L1_ENTRIES * L2_ENTRIES) p); [left; reflexivity|].
  destruct (Z.leb_spec NUM_PHYS_PAGES f); [left; reflexivity|]. cbv zeta.
  destruct (tables (page_table s) !!! Z.to_nat (Z.land (Z.shiftr p 4) 0xf))
    as [t|] eqn:Ht.
  - left. cbn [snd].
    change (pte q (set_used ?u ?x)) with (pte q x).
    rewrite pte_write_other; try assumption; try lia;
      [|eapply slot_lookup_ok; eassumption].
    case_decide as E; [|reflexivity].
    unfold pte. rewrite E, Ht. reflexivity.
  - destruct m; cbn [allocate_L2]; [|left; reflexivity]. cbn [snd].
    change (pte q (set_used ?u ?x)) with (pte q x).
    rewrite pte_write_other; try assumption; try lia; [|apply fresh_table_ok].
    case_decide as E; [|left; reflexivity].
    right. split; [unfold pte; rewrite E, Ht; reflexivity|].
    cbn [entries]. f_equal. apply lookup_total_replicate_2. apply index_lt_16.
Qed.

Lemma unmap_page_other (p q : Z) (s : VM) :
  vm_ok s -> 0 <= p -> 0 <= q < L1_ENTRIES * L2_ENTRIES -> p <> q ->
  pte q (snd (unmap_page p s)) = pte q s.
Proof.
  intros Hok Hp Hq Hne. unfold unmap_page.
  destruct (Z.leb_spec (L1_ENTRIES * L2_ENTRIES) p); [reflexivity|]. cbv zeta.
  destruct (tables (page_table s) !!! Z.to_nat (Z.land (Z.shiftr p 4) 0xf))
    as [t|] eqn:Ht; [|reflexivity].
  cbn [snd].
  set (s1 := if 0 <=? phys_page _ then _ else s).
  assert (Hs1 : page_table s1 = page_table s).
  { subst s1. unfold free_phys_page. repeat case_match; reflexivity. }
  assert (Hok1 : vm_ok s1).
  { subst s1. case_match; [apply free_phys_page_ok|]; exact Hok. }
  rewrite pte_write_other; try assumption; try lia.
  - rewrite (pte_same_tables q s s1 Hs1).
    case_decide as E; [|reflexivity].
    unfold pte. rewrite E, Ht. reflexivity.
  - exact (slot_lookup_ok s _ t Hok Ht).
Qed.

Lemma page_fault_handler_other (m : bool) (p q : Z) (s : VM) :
  vm_ok s -> 0 <= p -> 0 <= q < L1_ENTRIES * L2_ENTRIES -> p <> q ->
  pte q (snd (page_fault_handler m p s)) = pte q s
  \/ (pte q s = None
      /\ pte q (snd (page_fault_handler m p s)) = Some (mkL2Entry (-1) 0)).
Proof.
  intros Hok Hp Hq Hne. unfold page_fault_handler.
  destruct (allocate_phys_page_cases (incr_page_faults s))
    as [-> | (j & Hj & ->)]; [left; reflexivity|].
  destruct (Z.ltb_spec j 0); [left; reflexivity|].
  assert (Hok2 : vm_ok (take_frame j (incr_page_faults s))).
  { revert Hok. apply vm_ok_same_tables; cbn; [reflexivity|].
    apply length_insert. }
  exact (map_page_other m p q j _ _ Hok2 Hp Hq Hne).
Qed.

End OtherPages.

Section AccessOtherPages.

Lemma write_vmem_other (m : bool) (a val q : Z) (s : VM) :
  vm_ok s -> 0 <= a < RAM_SIZE -> 0 <= q < L1_ENTRIES * L2_ENTRIES ->
  vpage a <> q ->
  pte q (snd (write_vmem m a val s)) = pte q s
  \/ (pte q s = None
      /\ pte q (snd (write_vmem m a val s)) = Some (mkL2Entry (-1) 0)).
Proof.
  intros Hok Ha Hq Hne.
  destruct (outcome_code_cases (translate_outcome a true s))
    as [[pa H] | [H | H]].
  - rewrite (write_vmem_hit _ _ _ _ _ H). left. reflexivity.
  - rewrite (write_vmem_denied _ _ _ _ H). left. reflexivity.
  - rewrite (write_vmem_fault _ _ _ _ H). rewrite wrap16_vpage by exact Ha.
    assert (Hok1 : vm_ok (incr_translation_failures s))
      by (revert Hok; apply vm_ok_same_tables; reflexivity).
    pose proof (page_fault_handler_other m (vpage a) q _ Hok1
                  (vpage_nonneg a (proj1 Ha)) Hq Hne) as Hother.
    destruct (page_fault_handler _ _ _) as [r s2]. cbn [snd] in Hother.
    change (pte q (incr_translation_failures s)) with (pte q s) in Hother.
    destruct (negb (r =? 0)); [exact Hother|].
    destruct (translate_outcome a true s2); exact Hother.
Qed.

Lemma read_vmem_other (m : bool) (a q : Z) (out : option Z) (s : VM) :
  vm_ok s -> 0 <= a < RAM_SIZE -> 0 <= q < L1_ENTRIES * L2_ENTRIES ->
  vpage a <> q ->
  pte q (snd (read_vmem m a out s)) = pte q s
  \/ (pte q s = None
      /\ pte q (snd (read_vmem m a out s)) = Some (mkL2Entry (-1) 0)).
Proof.
  intros Hok Ha Hq Hne.
  destruct (outcome_code_cases (translate_outcome a false s))
    as [[pa H] | [H | H]].
  - rewrite (read_vmem_hit _ _ _ _ _ H). left. reflexivity.
  - rewrite (read_vmem_denied _ _ _ _ H). left. reflexivity.
  - rewrite (read_vmem_fault _ _ _ _ H). rewrite wrap16_vpage by exact Ha.
    assert (Hok1 : vm_ok (incr_translation_failures s))
      by (revert Hok; apply vm_ok_same_tables; reflexivity).
    pose proof (page_fault_handler_other m (vpage a) q _ Hok1
                  (vpage_nonneg a (proj1 Ha)) Hq Hne) as Hother.
    destruct (page_fault_handler _ _ _) as [r s2]. cbn [snd] in Hother.
    change (pte q (incr_translation_failures s)) with (pte q s) in Hother.
    destruct (negb (r =? 0)); [exact Hother|].
    destruct (translate_outcome a false s2); exact Hother.
Qed.

End AccessOtherPages.

(** X8.  What is done to one page leaves the translation of every other
    legal page as it was: after [map_page] or [unmap_page] of page [p], or
    a [write_vmem] or [read_vmem] at an address of [p] below [RAM_SIZE],
    [translate] at any address of a page [q <> p] takes the same branch and
    yields the same physical address as before. *)
Theorem other_pages_keep_their_translation
    (m : bool) (p q f fl a val b : Z) (w : bool) (out : option Z) (s : VM) :
  vm_ok s -> 0 <= p -> 0 <= q < L1_ENTRIES * L2_ENTRIES -> p <> q ->
  vpage b = q ->
  translate_outcome b w (snd (map_page m p f fl s)) = translate_outcome b w s
  /\ translate_outcome b w (snd (unmap_page p s)) = translate_outcome b w s
  /\ (0 <= a < RAM_SIZE -> vpage a = p ->
      translate_outcome b w (snd (write_vmem m a val s))
      = translate_outcome b w s
      /\ translate_outcome b w (snd (read_vmem m a out s))
         = translate_outcome b w s).
Proof.
  intros Hok Hp Hq Hne Hb. subst q.
  split; [|split].
  - apply translate_outcome_by_pte. apply map_page_other; assumption.
  - apply translate_outcome_by_pte. left. apply unmap_page_other; assumption.
  - intros Ha Hpa. subst p. split; apply translate_outcome_by_pte.
    + apply write_vmem_other; assumption.
    + apply read_vmem_other; assumption.
Qed.

Lemma other_pages_keep_their_translation_witness :
  translate_outcome 0x01F200 false
    (snd (unmap_page 0x10 (snd (map_page true 0x1F 51 7 boot))))
  = translate_outcome 0x01F200 false (snd (map_page true 0x1F 51 7 boot)).
Proof.
  refine (proj1 (proj2
    (other_pages_keep_their_translation true 0x10 0x1F 0 0 0 0 0x01F200 false
       None (snd (map_page true 0x1F 51 7 boot)) _ _ _ _ _))).
  - repeat split; try reflexivity. vm_compute. repeat constructor.
  - vm_compute. discriminate.
  - vm_compute. split; [discriminate|reflexivity].
  - discriminate.
  - reflexivity.
Defined.

(** ** Reads after writes *)

(** X9.  Accesses act on the bytes of the frame a page is mapped to.  After
    a write through a writable page, a read through a readable page yields
    the written byte when both pages are mapped to the same frame and the
    two addresses have the same offset -- also when the pages differ, two
    pages mapped to one frame being aliases -- and otherwise yields what the
    store held there before the write. *)
Theorem read_after_write
    (m1 m2 : bool) (a b val : Z) (out : option Z) (s : VM) (ea eb : L2Entry) :
  a < RAM_SIZE -> b < RAM_SIZE ->
  pte (vpage a) s = Some ea -> pte (vpage b) s = Some eb ->
  0 <= phys_page ea < NUM_PHYS_PAGES -> 0 <= phys_page eb < NUM_PHYS_PAGES ->
  has_flag ea PTE_VALID = true -> has_flag ea PTE_WRITE = true ->
  has_flag eb PTE_VALID = true -> has_flag eb PTE_READ = true ->
  fst (write_vmem m1 a val s) = 0
  /\ (phys_page ea = phys_page eb -> Z.land a 0xfff = Z.land b 0xfff ->
      fst (read_vmem m2 b out (snd (write_vmem m1 a val s))) = (0, Some val))
  /\ (phys_page ea <> phys_page eb \/ Z.land a 0xfff <> Z.land b 0xfff ->
      fst (read_vmem m2 b out (snd (write_vmem m1 a val s)))
      = (0, Some (RAM s (phys_page eb * PAGE_SIZE + Z.land b 0xfff)))).
Proof.
  intros Ha Hb Hpa Hpb Hfa Hfb Hva Hwa Hvb Hrb.
  pose proof (translate_hit a true s ea Ha Hpa Hfa Hva Hwa) as Hw.
  pose proof (translate_hit b false s eb Hb Hpb Hfb Hvb Hrb) as Hr.
  set (pa := phys_page ea * PAGE_SIZE + Z.land a 0xfff) in *.
  set (pb := phys_page eb * PAGE_SIZE + Z.land b 0xfff) in *.
  rewrite (write_vmem_hit m1 a val pa s Hw). cbn [fst snd].
  rewrite <- (translate_outcome_same_tables b false s
                (incr_writes (set_RAM (store pa val (RAM s)) s)) eq_refl) in Hr.
  rewrite (read_vmem_hit m2 b pb out _ Hr). cbn [fst].
  change (RAM (incr_writes (set_RAM (store pa val (RAM s)) s)))
    with (store pa val (RAM s)).
  pose proof (land_0xfff_range a). pose proof (land_0xfff_range b).
  split; [reflexivity|]. split.
  - intros Hf Ho. unfold store.
    replace pb with pa by (subst pa pb; rewrite Hf, Ho; reflexivity).
    rewrite Z.eqb_refl. reflexivity.
  - intros Hdiff. unfold store.
    destruct (Z.eqb_spec pb pa) as [E|_]; [|reflexivity].
    exfalso. subst pa pb. change PAGE_SIZE with 4096 in E.
    destruct Hdiff as [Hd|Hd]; apply Hd; lia.
Qed.

Lemma read_after_write_witness :
  fst (read_vmem false 0x001010 None
         (snd (write_vmem false 0x000010 0x5A
                 (snd (map_page true 1 9 7 (snd (map_page true 0 9 7 boot)))))))
  = (0, Some 0x5A).
Proof.
  refine (proj1 (proj2
    (read_after_write false false 0x000010 0x001010 0x5A None
       (snd (map_page true 1 9 7 (snd (map_page true 0 9 7 boot))))
       (mkL2Entry 9 7) (mkL2Entry 9 7) _ _ _ _ _ _ _ _ _ _)) _ _);
    try reflexivity; (vm_compute; split; [discriminate|reflexivity]).
Defined.

(** X10.  [unmap_page] frees the frame its entry records without looking
    for other entries that record it.  When two pages [p] and [q] are
    mapped to the same frame, unmapping [p] leaves that frame free in the
    allocator state while [q] is still mapped to it, so the next allocation
    may hand out a frame that is in use. *)
Theorem unmap_frees_frame_still_mapped (p q : Z) (s : VM) (ep eq : L2Entry) :
  vm_ok s ->
  0 <= p < L1_ENTRIES * L2_ENTRIES -> 0 <= q < L1_ENTRIES * L2_ENTRIES ->
  p <> q ->
  pte p s = Some ep -> pte q s = Some eq ->
  0 <= phys_page ep -> phys_page eq = phys_page ep ->
  let s' := snd (unmap_page p s) in
  fst (unmap_page p s) = 0
  /\ frame_free (phys_page eq) s'
  /\ pte q s' = Some eq
  /\ 0 <= fst (allocate_phys_page s') <= phys_page eq.
Proof.
  intros Hok Hp Hq Hne Hpp Hpq Hpos Hsame s'.
  pose proof (unmap_page_other p q s Hok (proj1 Hp) Hq Hne) as Hother.
  pose proof (unmap_page_ok p s Hok) as Hok'.
  destruct (unmap_page_present p s ep Hok (proj2 Hp) Hpp)
    as (s1 & Heq & _ & Hused & _).
  subst s'. rewrite Heq in *. cbn [fst snd] in *.
  assert (Hfree : frame_free (phys_page eq) s1).
  { pose proof (pte_entry_ok _ _ _ Hok Hpp) as Hlt. rewrite Hsame.
    split; [lia|]. rewrite Hused.
    destruct (Z.leb_spec 0 (phys_page ep)); [|lia].
    apply list_lookup_total_insert_eq.
    destruct Hok as (_ & _ & ->). change NUM_PHYS_PAGES with 256 in *. lia. }
  split; [reflexivity|]. split; [exact Hfree|].
  split; [rewrite Hother; exact Hpq|].
  destruct (allocate_phys_page_free s1 _ Hfree) as (j & -> & [Hjr _] & Hleast).
  cbn [fst]. pose proof (Hleast _ Hfree). lia.
Qed.

Lemma unmap_frees_frame_still_mapped_witness :
  frame_free 9
    (snd (unmap_page 0 (snd (map_page true 1 9 7 (snd (map_page true 0 9 7 boot))))))
  /\ pte 1
       (snd (unmap_page 0 (snd (map_page true 1 9 7 (snd (map_page true 0 9 7 boot))))))
     = Some (mkL2Entry 9 7).
Proof.
  destruct (unmap_frees_frame_still_mapped 0 1
              (snd (map_page true 1 9 7 (snd (map_page true 0 9 7 boot))))
              (mkL2Entry 9 7) (mkL2Entry 9 7))
    as (_ & Hfree & Hpte & _); try reflexivity.
  - repeat split; try reflexivity. vm_compute. repeat constructor.
  - vm_compute. split; [discriminate|reflexivity].
  - vm_compute. split; [discriminate|reflexivity].
  - discriminate.
  - vm_compute. discriminate.
  - split; assumption.
Defined.

(** ** The bitmap of used frames *)

Section UsedFrames.

Lemma insert_true_keeps (l : list bool) (j i : nat) :
  l !!! i = true -> <[j := true]> l !!! i = true.
Proof.
  intros H. rewrite list_lookup_total_insert. case_decide; [reflexivity|exact H].
Qed.

Lemma map_page_keeps_used (m : bool) (v f fl : Z) (s : VM) (i : nat) :
  phys_pages_used s !!! i = true ->
  phys_pages_used (snd (map_page m v f fl s)) !!! i = true.
Proof.
  intros H. unfold map_page.
  repeat case_match; cbn [snd set_used phys_pages_used]; try exact H.
  all: apply insert_true_keeps; exact H.
Qed.

Lemma page_fault_handler_keeps_used (m : bool) (v : Z) (s : VM) (i : nat) :
  phys_pages_used s !!! i = true ->
  phys_pages_used (snd (page_fault_handler m v s)) !!! i = true.
Proof.
  intros H. unfold page_fault_handler.
  destruct (allocate_phys_page_cases (incr_page_faults s))
    as [-> | (j & Hj & ->)]; [exact H|].
  destruct (Z.ltb_spec j 0); [apply insert_true_keeps; exact H|].
  apply map_page_keeps_used. apply insert_true_keeps. exact H.
Qed.

Lemma write_vmem_keeps_used (m : bool) (a val : Z) (s : VM) (i : nat) :
  phys_pages_used s !!! i = true ->
  phys_pages_used (snd (write_vmem m a val s)) !!! i = true.
Proof.
  intros Hi.
  destruct (outcome_code_cases (translate_outcome a true s))
    as [[pa H] | [H | H]].
  - rewrite (write_vmem_hit _ _ _ _ _ H). exact Hi.
  - rewrite (write_vmem_denied _ _ _ _ H). exact Hi.
  - rewrite (write_vmem_fault _ _ _ _ H).
    pose proof (page_fault_handler_keeps_used m (wrap16 (vpage a))
                  (incr_translation_failures s) i Hi) as Hk.
    destruct (page_fault_handler _ _ _) as [r s2]. cbn [snd] in Hk.
    destruct (negb (r =? 0)); [exact Hk|].
    destruct (translate_outcome a true s2); exact Hk.
Qed.

Lemma read_vmem_keeps_used (m : bool) (a : Z) (out : option Z) (s : VM) (i : nat) :
  phys_pages_used s !!! i = true ->
  phys_pages_used (snd (read_vmem m a out s)) !!! i = true.
Proof.
  intros Hi.
  destruct (outcome_code_cases (translate_outcome a false s))
    as [[pa H] | [H | H]].
  - rewrite (read_vmem_hit _ _ _ _ _ H). exact Hi.
  - rewrite (read_vmem_denied _ _ _ _ H). exact Hi.
  - rewrite (read_vmem_fault _ _ _ _ H).
    pose proof (page_fault_handler_keeps_used m (wrap16 (vpage a))
                  (incr_translation_failures s) i Hi) as Hk.
    destruct (page_fault_handler _ _ _) as [r s2]. cbn [snd] in Hk.
    destruct (negb (r =? 0)); [exact Hk|].
    destruct (translate_outcome a false s2); exact Hk.
Qed.

End UsedFrames.

(** X11.  Only [unmap_page] and [init_vm] ever release a frame.  Across
    [map_page], [read_vmem], [write_vmem], [translate] and [free_pages]
    every frame that is marked used stays marked used -- in particular the
    frame of a mapping that [map_page] overwrites, and the frames of the
    mappings [free_pages] drops. *)
Theorem frames_stay_used (o : Op) (s : VM) (i : nat) :
  o <> OpInit -> (forall v, o <> OpUnmap v) ->
  phys_pages_used s !!! i = true ->
  phys_pages_used (step o s) !!! i = true.
Proof.
  intros Hinit Hunmap Hi. unfold step.
  destruct o as [|m v f fl|v|m a|m a val|a w|]; cbn [exec].
  - congruence.
  - apply map_page_keeps_used. exact Hi.
  - exfalso. apply (Hunmap v). reflexivity.
  - pose proof (read_vmem_keeps_used m a None s i Hi) as H.
    destruct (read_vmem m a None s) as [[r o] s']. exact H.
  - apply write_vmem_keeps_used. exact Hi.
  - destruct (translate_state a None w s) as [H|H];
      destruct (translate a None w s) as [[r o] s']; cbn [snd] in *;
      subst s'; exact Hi.
  - exact Hi.
Qed.

Lemma frames_stay_used_witness :
  phys_pages_used
    (step (OpMap true 0 21 7) (snd (map_page true 0 20 7 boot))) !!! 20%nat
  = true.
Proof.
  apply (frames_stay_used (OpMap true 0 21 7)).
  - discriminate.
  - discriminate.
  - reflexivity.
Defined.

(** ** Running out of memory *)

(** X12.  With every frame in use, an access to a legal unmapped page
    fails: [write_vmem] and [read_vmem] return -1 after one translation
    failure and one page fault have been counted, and nothing else
    changes -- no mapping, no frame, no byte, and [read_vmem] leaves its
    out-parameter alone.  There is no second translation. *)
Theorem exhausted_access_fails
    (m : bool) (a val : Z) (out : option Z) (s : VM) :
  a < RAM_SIZE -> unmapped (vpage a) s -> (forall i, ~ frame_free i s) ->
  write_vmem m a val s
  = (-1, incr_page_faults (incr_translation_failures s))
  /\ read_vmem m a out s
     = (-1, out, incr_page_faults (incr_translation_failures s)).
Proof.
  intros Ha Hun Hfull.
  assert (Hall : forall i, 0 <= i < NUM_PHYS_PAGES ->
            phys_pages_used (incr_page_faults (incr_translation_failures s))
              !!! Z.to_nat i = true).
  { intros i Hi. cbn.
    destruct (phys_pages_used s !!! Z.to_nat i) eqn:Hu; [reflexivity|].
    exfalso. apply (Hfull i). split; assumption. }
  assert (Hpfh : page_fault_handler m (wrap16 (vpage a))
                   (incr_translation_failures s)
                 = (-1, incr_page_faults (incr_translation_failures s))).
  { unfold page_fault_handler.
    rewrite (allocate_phys_page_full _ Hall). reflexivity. }
  split.
  - rewrite write_vmem_fault
      by (rewrite (translate_miss a true s Ha Hun); reflexivity).
    rewrite Hpfh. reflexivity.
  - rewrite read_vmem_fault
      by (rewrite (translate_miss a false s Ha Hun); reflexivity).
    rewrite Hpfh. reflexivity.
Qed.

Lemma exhausted_access_fails_witness :
  fst (write_vmem true 0x005000 0x99 (set_used (replicate 256 true) boot)) = -1.
Proof.
  assert (Hfull : forall i,
            ~ frame_free i (set_used (replicate 256 true) boot)).
  { intros i [Hi Hf]. cbn [set_used phys_pages_used] in Hf.
    rewrite lookup_total_replicate_2 in Hf
      by (change NUM_PHYS_PAGES with 256 in Hi; lia).
    discriminate. }
  rewrite (proj1 (exhausted_access_fails true 0x005000 0x99 None
                    (set_used (replicate 256 true) boot) eq_refl I Hfull)).
  reflexivity.
Defined.



(** ** Address translation *)

(** X14.  On a page mapped to frame [f] with the permission asked for,
    [translate] returns 0, changes nothing, and stores the physical address
    [f * PAGE_SIZE + offset]: an address below [RAM_SIZE] whose frame
    number is [f] and whose low twelve bits are those of the virtual
    address. *)
Theorem translate_maps_into_frame
    (a : Z) (out : option Z) (w : bool) (s : VM) (e : L2Entry) :
  a < RAM_SIZE -> pte (vpage a) s = Some e ->
  0 <= phys_page e < NUM_PHYS_PAGES -> has_flag e PTE_VALID = true ->
  has_flag e (if w then PTE_WRITE else PTE_READ) = true ->
  let pa := phys_page e * PAGE_SIZE + Z.land a 0xfff in
  translate a out w s = (0, Some pa, s)
  /\ 0 <= pa < RAM_SIZE
  /\ Z.shiftr pa 12 = phys_page e
  /\ Z.land pa 0xfff = Z.land a 0xfff.
Proof.
  intros Ha Hpte Hf Hv Hperm pa.
  rewrite translate_classified, (translate_hit a w s e Ha Hpte Hf Hv Hperm).
  fold pa. split; [reflexivity|].
  pose proof (land_0xfff_range a) as Ho.
  change NUM_PHYS_PAGES with 256 in Hf.
  assert (Hpa : pa = phys_page e * 4096 + Z.land a 0xfff) by reflexivity.
  split; [change RAM_SIZE with 1048576; lia|]. split.
  - rewrite Z.shiftr_div_pow2 by lia. change (2 ^ 12) with 4096.
    rewrite Hpa. rewrite Z.add_comm, Z.div_add by lia.
    rewrite Z.div_small by lia. reflexivity.
  - change 0xfff with (Z.ones 12) at 1. rewrite Z.land_ones by lia.
    change (2 ^ 12) with 4096. rewrite Hpa.
    rewrite Z.add_comm, Z.mod_add by lia. apply Z.mod_small. lia.
Qed.

Lemma translate_maps_into_frame_witness :
  translate 0x000510 None true (snd (map_page true 0 42 7 boot))
  = (0, Some (42 * PAGE_SIZE + 0x510), snd (map_page true 0 42 7 boot)).
Proof.
  refine (proj1 (translate_maps_into_frame 0x000510 None true
                   (snd (map_page true 0 42 7 boot)) (mkL2Entry 42 7)
                   _ _ _ _ _)); try reflexivity.
  vm_compute. split; [discriminate|reflexivity].
Defined.

(** ** Frames in order of first touch *)

Section FirstTouch.

(** A faulting write, spelled out: the state the handler leaves, with the
    byte stored in the frame it chose. *)
Lemma write_vmem_faults_in (m : bool) (a val i : Z) (s : VM) :
  vm_ok s -> 0 <= a < RAM_SIZE -> unmapped (vpage a) s -> frame_free i s ->
  pte (vpage a) s <> None \/ m = true ->
  exists j s2,
    frame_free j s /\ (forall k, frame_free k s -> j <= k)
    /\ pte (vpage a) s2 = Some (mkL2Entry j 7)
    /\ phys_pages_used s2 = <[Z.to_nat j := true]> (phys_pages_used s)
    /\ stats s2 = stats (incr_page_faults (incr_translation_failures s))
    /\ write_vmem m a val s
       = (0, incr_writes
               (set_RAM (store (j * PAGE_SIZE + Z.land a 0xfff) val (RAM s2)) s2)).
Proof.
  intros Hok Ha Hun Hfree Hm.
  destruct (fault_in m a i s Hok Ha Hfree Hm)
    as (j & s2 & Hpfh & Hj & Hleast & Hpte & _ & Hused & Hst & _).
  exists j, s2. repeat (split; [assumption|]).
  rewrite write_vmem_fault
    by (rewrite (translate_miss a true s (proj2 Ha) Hun); reflexivity).
  rewrite Hpfh. cbn [Z.eqb negb].
  rewrite (translate_rw a true j s2 (proj2 Ha) (proj1 Hj) Hpte). reflexivity.
Qed.

Lemma touched_in_order_init (s0 : VM) : touched_in_order [] (init_vm s0).
Proof.
  split; [apply init_vm_ok|]. split; [constructor|]. split; [|split].
  - intros k Hk. cbn [init_vm phys_pages_used length].
    rewrite lookup_total_replicate_2 by exact Hk.
    symmetry. apply bool_decide_eq_false. lia.
  - intros i p H. rewrite lookup_nil in H. discriminate.
  - intros q _ _. unfold unmapped, pte. cbn [init_vm page_table tables].
    rewrite lookup_total_replicate_2 by apply index_lt_16. exact I.
Qed.

(** One more first touch. *)
Lemma touched_in_order_step (ps : list Z) (a val : Z) (s : VM) :
  touched_in_order ps s -> 0 <= a < RAM_SIZE -> vpage a ∉ ps ->
  (length ps < Z.to_nat NUM_PHYS_PAGES)%nat ->
  fst (write_vmem true a val s) = 0
  /\ page_faults (stats (snd (write_vmem true a val s)))
     = wrap32 (page_faults (stats s) + 1)
  /\ phys_pages_used (snd (write_vmem true a val s))
     = <[length ps := true]> (phys_pages_used s)
  /\ touched_in_order (ps ++ [vpage a]) (snd (write_vmem true a val s)).
Proof.
  intros (Hok & Hlegal & Hused & Hmapped & Hrest) Ha Hnew Hlen.
  pose proof (vpage_range a Ha) as Hp.
  pose proof (write_vmem_ok true a val s Hok) as Hok'.
  assert (Hother : forall q, 0 <= q < L1_ENTRIES * L2_ENTRIES -> vpage a <> q ->
            pte q (snd (write_vmem true a val s)) = pte q s
            \/ (pte q s = None
                /\ pte q (snd (write_vmem true a val s)) = Some (mkL2Entry (-1) 0)))
    by (intros q Hq Hne; apply write_vmem_other; assumption).
  set (n := length ps) in *.
  assert (Hfree : frame_free (Z.of_nat n) s).
  { split; [change NUM_PHYS_PAGES with 256 in *; lia|].
    rewrite Nat2Z.id, Hused by exact Hlen.
    apply bool_decide_eq_false. lia. }
  destruct (write_vmem_faults_in true a val _ s Hok Ha
              (Hrest _ Hp Hnew) Hfree (or_intror eq_refl))
    as (j & s2 & [Hjr Hjf] & Hleast & Hpte & Hused2 & Hst & Heq).
  assert (Hj : j = Z.of_nat n).
  { pose proof (Hleast _ Hfree).
    destruct (Z.lt_ge_cases j (Z.of_nat n)) as [Hlt|]; [|lia].
    rewrite Hused in Hjf by (change NUM_PHYS_PAGES with 256 in *; lia).
    apply bool_decide_eq_false in Hjf. lia. }
  subst j. rewrite Heq in *. cbn [fst snd] in *.
  split; [reflexivity|]. split.
  { change (page_faults (stats (incr_writes ?x))) with (page_faults (stats s2)).
    rewrite Hst. reflexivity. }
  split.
  { change (phys_pages_used (incr_writes ?x)) with (phys_pages_used s2).
    rewrite Hused2, Nat2Z.id. reflexivity. }
  split; [exact Hok'|]. split; [|split; [|split]].
  - apply Forall_app. split; [exact Hlegal|]. constructor; [exact Hp|constructor].
  - intros k Hk. rewrite length_app. cbn [length].
    change (phys_pages_used (incr_writes ?x)) with (phys_pages_used s2).
    rewrite Hused2, Nat2Z.id, list_lookup_total_insert.
    case_decide as E.
    + destruct E as [<- _]. symmetry. apply bool_decide_eq_true. lia.
    + rewrite Hused by exact Hk. apply bool_decide_ext.
      destruct Hok as (_ & _ & Hl). fold n. lia.
  - intros i p Hi.
    destruct (decide (i < n)%nat) as [Hlt|Hge].
    + rewrite lookup_app_l in Hi by exact Hlt.
      assert (Hpp : 0 <= p < L1_ENTRIES * L2_ENTRIES)
        by (exact (Forall_lookup_1 _ _ _ _ Hlegal Hi)).
      assert (Hne : vpage a <> p).
      { intros <-. apply Hnew. apply list_elem_of_lookup. eauto. }
      destruct (Hother p Hpp Hne) as [-> | [Hnone _]].
      * apply Hmapped. exact Hi.
      * rewrite (Hmapped i p Hi) in Hnone. discriminate.
    + rewrite lookup_app_r in Hi by lia.
      destruct (i - length ps)%nat as [|d] eqn:Hd;
        [|cbn in Hi; discriminate].
      injection Hi as <-. replace i with n by (subst n; lia). exact Hpte.
  - intros q Hq Hnotin.
    apply not_elem_of_app in Hnotin as [Hq1 Hq2].
    assert (Hne : vpage a <> q).
    { intros <-. apply Hq2. apply list_elem_of_singleton. reflexivity. }
    pose proof (Hrest q Hq Hq1) as Hun. unfold unmapped in *.
    destruct (Hother q Hq Hne) as [-> | [_ ->]]; [exact Hun|reflexivity].
Qed.

Lemma run_app (ops1 ops2 : list Op) (s : VM) :
  run (ops1 ++ ops2) s = run ops2 (run ops1 s).
Proof. unfold run. apply foldl_app. Qed.

End FirstTouch.

Section FirstTouchRun.

(** Any number of first touches, from a state reached by first touches. *)
Lemma touched_in_order_run (accs : list (Z * Z)) (ps : list Z) (s : VM) :
  touched_in_order ps s ->
  page_faults (stats s) = Z.of_nat (length ps) ->
  Forall (fun av => 0 <= fst av < RAM_SIZE) accs ->
  NoDup (ps ++ map (fun av => vpage (fst av)) accs) ->
  (length ps + length accs <= Z.to_nat NUM_PHYS_PAGES)%nat ->
  let ops := map (fun av => OpWrite true (fst av) (snd av)) accs in
  touched_in_order (ps ++ map (fun av => vpage (fst av)) accs) (run ops s)
  /\ page_faults (stats (run ops s)) = Z.of_nat (length ps + length accs)
  /\ count_used (phys_pages_used (run ops s))
     = count_used (phys_pages_used s) + Z.of_nat (length accs)
  /\ (forall i av, accs !! i = Some av ->
        fst (write_vmem true (fst av) (snd av) (run (take i ops) s)) = 0).
Proof.
  revert ps s. induction accs as [|[a v] accs IH]; intros ps s Hinv Hpf Hrange Hnd Hlen.
  - cbv zeta. cbn [map length]. change (run [] s) with s.
    rewrite app_nil_r, Nat.add_0_r.
    split; [exact Hinv|]. split; [exact Hpf|]. split; [lia|].
    intros i av H. rewrite lookup_nil in H. discriminate.
  - cbn [map length fst snd] in *.
    inversion Hrange as [|? ? Ha Hrange']; subst. cbn [fst] in Ha.
    assert (Hnew : vpage a ∉ ps).
    { apply NoDup_app in Hnd as (_ & Hdisj & _). intros Hin.
      apply (Hdisj _ Hin). apply list_elem_of_here. }
    destruct (touched_in_order_step ps a v s Hinv Ha Hnew ltac:(lia))
      as (Hret & Hpf' & Hused' & Hinv').
    set (s1 := snd (write_vmem true a v s)) in *.
    assert (Hpf1 : page_faults (stats s1) = Z.of_nat (length (ps ++ [vpage a]))).
    { rewrite Hpf', Hpf, length_app. cbn [length].
      rewrite wrap32_small by (change NUM_PHYS_PAGES with 256 in Hlen; lia). lia. }
    assert (Hnd1 : NoDup ((ps ++ [vpage a]) ++ map (fun av => vpage (fst av)) accs))
      by (rewrite <- app_assoc; exact Hnd).
    assert (Hlen1 : (length (ps ++ [vpage a]) + length accs
                     <= Z.to_nat NUM_PHYS_PAGES)%nat)
      by (rewrite length_app; cbn [length]; lia).
    destruct (IH (ps ++ [vpage a]) s1 Hinv' Hpf1 Hrange' Hnd1 Hlen1)
      as (Hinv2 & Hpf2 & Hcount2 & Hret2).
    cbv zeta.
    change (run (OpWrite true a v :: ?ops) s) with (run ops s1).
    rewrite <- app_assoc in Hinv2. cbn [app] in Hinv2.
    split; [exact Hinv2|]. split; [|split].
    + rewrite Hpf2, length_app. cbn [length]. lia.
    + rewrite Hcount2. subst s1. rewrite Hused'.
      destruct Hinv as (Hok & _ & Hu & _).
      rewrite count_used_insert
        by (destruct Hok as (_ & _ & ->); lia).
      rewrite Hu by lia.
      rewrite bool_decide_eq_false_2 by lia. lia.
    + intros i av Hi. destruct i as [|i].
      * injection Hi as <-. exact Hret.
      * cbn [take]. change (run (OpWrite true a v :: ?ops) s) with (run ops s1).
        apply Hret2. exact Hi.
Qed.

End FirstTouchRun.

(** X15.  After [init_vm], frames are handed out in the order pages are
    first touched.  For writes to up to [NUM_PHYS_PAGES] pairwise distinct
    legal pages (second-level tables being allocatable), every write
    succeeds; afterwards the page touched [i]-th is mapped read-write onto
    frame [i] and no other page is mapped, [page_faults] is the number of
    pages touched, and so is the number of used frames [print_stats]
    reports. *)
Theorem frames_in_order_of_first_touch (accs : list (Z * Z)) (s0 : VM) :
  Forall (fun av => 0 <= fst av < RAM_SIZE) accs ->
  NoDup (map (fun av => vpage (fst av)) accs) ->
  (length accs <= Z.to_nat NUM_PHYS_PAGES)%nat ->
  let ops := map (fun av => OpWrite true (fst av) (snd av)) accs in
  let s := run ops (init_vm s0) in
  touched_in_order (map (fun av => vpage (fst av)) accs) s
  /\ page_faults (stats s) = Z.of_nat (length accs)
  /\ rep_used_pages (print_stats s) = Z.of_nat (length accs)
  /\ (forall i av, accs !! i = Some av ->
        fst (write_vmem true (fst av) (snd av) (run (take i ops) (init_vm s0)))
        = 0).
Proof.
  intros Hrange Hnd Hlen ops s.
  destruct (touched_in_order_run accs [] (init_vm s0)
              (touched_in_order_init s0) eq_refl Hrange Hnd Hlen)
    as (Hinv & Hpf & Hcount & Hret).
  cbn [app length Nat.add] in *. fold ops in Hinv, Hpf, Hcount, Hret. fold s in Hinv, Hpf, Hcount.
  split; [exact Hinv|]. split; [exact Hpf|]. split; [|exact Hret].
  rewrite print_stats_counts by (destruct Hinv as [Hok _]; exact Hok).
  rewrite Hcount. reflexivity.
Qed.

Lemma frames_in_order_of_first_touch_witness :
  pte 0xAB (run [OpWrite true 0x01F200 0xBB; OpWrite true 0x0AB300 0xCC]
              (init_vm boot))
  = Some (mkL2Entry 1 7).
Proof.
  destruct (frames_in_order_of_first_touch
              [(0x01F200, 0xBB); (0x0AB300, 0xCC)] boot)
    as ((_ & _ & _ & Hmapped & _) & _).
  - repeat constructor; discriminate.
  - repeat constructor; cbn; intros H;
      repeat (apply elem_of_cons in H as [H|H]; [discriminate|]);
      apply elem_of_nil in H; exact H.
  - change (Z.to_nat NUM_PHYS_PAGES) with 256%nat. cbn [length]. lia.
  - exact (Hmapped 1%nat 0xAB eq_refl).
Defined.

(** ** Initialisation *)

(** X16.  [init_vm] forgets every mapping and every frame but not the
    bytes of the store: it leaves [RAM] as it is, every counter and the
    number of used frames at 0, and every address unmapped.  The stale
    bytes cannot be read back, though: the first read of any legal address
    after [init_vm] (second-level tables being allocatable) succeeds and
    yields 0.  Calling [init_vm] twice is the same as calling it once. *)
Theorem init_vm_resets (s0 : VM) (a : Z) (out : option Z) :
  0 <= a < RAM_SIZE ->
  RAM (init_vm s0) = RAM s0
  /\ init_vm (init_vm s0) = init_vm s0
  /\ stats (init_vm s0) = mkVMStats 0 0 0 0
  /\ rep_used_pages (print_stats (init_vm s0)) = 0
  /\ (forall w, translate_outcome a w (init_vm s0) = TranslationMiss)
  /\ fst (read_vmem true a out (init_vm s0)) = (0, Some 0).
Proof.
  intros Ha.
  destruct (touched_in_order_init s0) as (Hok & _ & Hused & _ & Hun).
  pose proof (Hun _ (vpage_range a Ha) (not_elem_of_nil _)) as Hunm.
  split; [reflexivity|]. split; [reflexivity|]. split; [reflexivity|].
  split; [reflexivity|]. split.
  - intros w. apply translate_miss; [apply Ha|exact Hunm].
  - assert (Hfree : frame_free 0 (init_vm s0)).
    { split; [change NUM_PHYS_PAGES with 256; lia|]. reflexivity. }
    destruct (fault_in true a 0 (init_vm s0) Hok Ha Hfree (or_intror eq_refl))
      as (j & s2 & Hpfh & [Hjr _] & _ & Hpte & Hram & _).
    rewrite read_vmem_fault
      by (rewrite (translate_miss a false _ (proj2 Ha) Hunm); reflexivity).
    rewrite Hpfh. cbn [Z.eqb negb].
    rewrite (translate_rw a false j s2 (proj2 Ha) Hjr Hpte). cbn [fst].
    rewrite Hram, memset_zero_in_frame. reflexivity.
Qed.

Lemma init_vm_resets_witness :
  fst (read_vmem true 0x000100 None
         (init_vm (snd (write_vmem true 0x000100 0xAA boot)))) = (0, Some 0).
Proof.
  refine (proj2 (proj2 (proj2 (proj2 (proj2
    (init_vm_resets (snd (write_vmem true 0x000100 0xAA boot)) 0x000100 None _)))))).
  vm_compute. split; [discriminate|reflexivity].
Defined.

(** ** Unmapping twice, and unmapping what was never mapped *)

Section UnmapAgain.

(** Unmapping a page whose entry is already cleared changes nothing. *)
Lemma unmap_page_cleared (v : Z) (s : VM) :
  vm_ok s -> v < L1_ENTRIES * L2_ENTRIES ->
  pte v s = Some (mkL2Entry (-1) 0) -> unmap_page v s = (0, s).
Proof.
  intros Hok Hv. unfold pte, unmap_page.
  destruct (Z.leb_spec (L1_ENTRIES * L2_ENTRIES) v); [lia|]. cbv zeta.
  destruct (tables (page_table s) !!! Z.to_nat (Z.land (Z.shiftr v 4) 0xf))
    as [t|] eqn:Ht; [|discriminate].
  intros [= He]. rewrite He. cbn [phys_page]. change (0 <=? -1) with false.
  f_equal.
  pose proof (slot_lookup_ok _ _ _ Hok Ht) as [Hlen _].
  assert (Hl2 : entries t !! Z.to_nat (Z.land v 0xf) = Some (mkL2Entry (-1) 0)).
  { rewrite <- He. apply list_lookup_lookup_total_lt.
    rewrite Hlen. apply index_lt_16. }
  rewrite (list_insert_id _ _ _ Hl2).
  assert (Hl1 : tables (page_table s) !! Z.to_nat (Z.land (Z.shiftr v 4) 0xf)
                = Some (Some t)).
  { rewrite <- Ht. apply list_lookup_lookup_total_lt.
    destruct Hok as (-> & _). apply index_lt_16. }
  destruct t as [et]. cbn [entries].
  rewrite (list_insert_id _ _ _ Hl1).
  destruct s as [r [ts] u st]. reflexivity.
Qed.

End UnmapAgain.

(** X17.  [unmap_page] is idempotent: a second [unmap_page] of the same
    page returns what the first returned and leaves the state exactly as
    the first left it.  In particular it frees nothing, so a frame that was
    freed by the first call and has been handed out again since is not
    freed a second time. *)
Theorem unmap_page_idempotent (v : Z) (s : VM) :
  vm_ok s ->
  unmap_page v (snd (unmap_page v s))
  = (fst (unmap_page v s), snd (unmap_page v s)).
Proof.
  intros Hok.
  destruct (Z.le_gt_cases (L1_ENTRIES * L2_ENTRIES) v) as [Hv|Hv].
  - rewrite !(unmap_page_out_of_bounds v s Hv). cbn [fst snd].
    apply unmap_page_out_of_bounds. exact Hv.
  - destruct (pte v s) as [e|] eqn:Hpte.
    + pose proof (unmap_page_ok v s Hok) as Hok'.
      destruct (unmap_page_present v s e Hok ltac:(lia) Hpte)
        as (s1 & Heq & Hpte' & _).
      rewrite Heq in *. cbn [fst snd] in *.
      apply unmap_page_cleared; [exact Hok'|lia|exact Hpte'].
    + rewrite !(unmap_page_absent v s Hpte). cbn [fst snd].
      apply unmap_page_absent. exact Hpte.
Qed.

Lemma unmap_page_idempotent_witness :
  fst (unmap_page 6 (snd (unmap_page 6 (snd (map_page true 6 40 7 boot))))) = 0.
Proof.
  rewrite (unmap_page_idempotent 6 (snd (map_page true 6 40 7 boot))).
  - reflexivity.
  - repeat split; try reflexivity. vm_compute. repeat constructor.
Defined.

(** X18.  What [unmap_page] answers for a page that was never mapped
    depends on its neighbours.  While the second-level table of the page
    does not exist the answer is -1; once [map_page] has succeeded for any
    page of the same first-level slot the table exists, and [unmap_page]
    of the still unmapped page returns 0. *)
Theorem unmap_page_answer_depends_on_slot (m : bool) (p q f fl : Z) (s : VM) :
  vm_ok s -> q < L1_ENTRIES * L2_ENTRIES ->
  Z.land (Z.shiftr q 4) 0xf = Z.land (Z.shiftr p 4) 0xf ->
  pte q s = None ->
  fst (map_page m p f fl s) = 0 ->
  fst (unmap_page q s) = -1
  /\ fst (unmap_page q (snd (map_page m p f fl s))) = 0
  /\ (0 <= p -> 0 <= q -> p <> q -> unmapped q (snd (map_page m p f fl s))).
Proof.
  intros Hok Hq Hslot Hnone Hret.
  split; [rewrite (unmap_page_absent q s Hnone); reflexivity|].
  pose proof (map_page_ok m p f fl s Hok) as Hok'.
  destruct (map_page m p f fl s) as [r s1] eqn:Hmap. cbn [fst snd] in *. subst r.
  destruct (map_page_installs _ _ _ _ _ _ Hok Hmap) as (Hpte & _).
  assert (Hsome : exists e, pte q s1 = Some e).
  { unfold pte in *. rewrite Hslot.
    destruct (tables (page_table s1) !!! _) as [t|]; [eauto|discriminate]. }
  destruct Hsome as [e He]. split.
  - destruct (unmap_page_present q s1 e Hok' Hq He) as (s2 & -> & _).
    reflexivity.
  - intros Hp0 Hq0 Hne.
    pose proof (map_page_other m p q f fl s Hok Hp0 (conj Hq0 Hq) Hne) as Ho.
    rewrite Hmap in Ho. cbn [snd] in Ho. unfold unmapped.
    destruct Ho as [-> | [_ ->]]; [rewrite Hnone; exact I|reflexivity].
Qed.

Lemma unmap_page_answer_depends_on_slot_witness :
  fst (unmap_page 0x61 boot) = -1
  /\ fst (unmap_page 0x61 (snd (map_page true 0x60 40 7 boot))) = 0.
Proof.
  destruct (unmap_page_answer_depends_on_slot true 0x60 0x61 40 7 boot)
    as (H1 & H2 & _); try reflexivity.
  - repeat split; try reflexivity. apply Forall_replicate. exact I.
  - split; assumption.
Defined.
